(** * TaskMaster core: similarity index, intent engine, reminder scheduler

    A shallow embedding of the three TypeScript services

      - [VectorStore]      (services/vectorStore.ts)
      - [ReminderService]  (services/reminderService.ts)
      - [RAGAgent]         (services/ragAgent.ts)

    together with the properties of the specification that concern them,
    and of the text side of [DocumentProcessor]
    (services/documentProcessor.ts) and the list kept by [ReminderPanel]
    (components/ReminderPanel.tsx).

    Modelling conventions.
      - A JavaScript [number] that holds a similarity, a norm or a
        confidence is an IEEE 754 binary64 value: [spec_float] with
        precision 53 and maximal exponent 1024, rounded to nearest even
        by the operations of [SpecFloat].  NaN is a value like any other.
      - A [Date] is its time value, an integer number of milliseconds
        ([Z]).  On valid dates, with [now] an instant the clock can
        read, the arithmetic the code does on time values is exact in
        binary64, so it is carried out in [Z], and in [Q] where the code
        multiplies by 0.25 or 0.5; the [Date] constructor truncates a
        fractional time value toward zero.  Invalid dates are outside
        the model.
      - A string is a [string] whose characters are read as code units
        below 256.  An identifier drawn from [crypto.randomUUID()] is
        the value of a counter: two draws never collide.
      - Every [new Date()] executed during one synchronous call reads the
        same instant [now]; local time is UTC shifted by a fixed offset
        [tz] (no daylight-saving change between [now] and the due date).
      - The [limit] of a search is a natural number.
      - [async] functions of the source await nothing but their own
        results; they are modelled as plain functions.  A [TypeError]
        is [None]. *)

From Stdlib Require Import ZArith List String Ascii Bool Lia QArith Qround.
From Stdlib Require Import Sorted Permutation.
From Stdlib Require Import Floats.SpecFloat.
From stdpp Require Import gmap strings list.

Local Open Scope Z_scope.

(* ================================================================== *)
(** * JavaScript numbers *)
(* ================================================================== *)

Module Num.

Definition number : Type := spec_float.

Definition prec : Z := 53.
Definition emax : Z := 1024.

Definition NaN : number := S754_nan.
Definition zero : number := S754_zero false.

(** The number denoted by an integer literal or by an array length. *)
Definition of_Z (n : Z) : number := binary_normalize prec emax n 0 false.

Definition add : number -> number -> number := SFadd prec emax.
Definition sub : number -> number -> number := SFsub prec emax.
Definition mul : number -> number -> number := SFmul prec emax.
Definition div : number -> number -> number := SFdiv prec emax.
Definition sqrt : number -> number := SFsqrt prec emax.

(** [x > y], [x < y], [x <= y] of the language: false as soon as one
    side is NaN. *)
Definition gt (x y : number) : bool := SFltb y x.
Definition lt (x y : number) : bool := SFltb x y.
Definition le (x y : number) : bool := SFleb x y.

Definition is_nan (x : number) : bool :=
  match x with S754_nan => true | _ => false end.

(** [Math.min(x, y)]: NaN if either argument is, and -0 below +0. *)
Definition min (x y : number) : number :=
  match SFcompare x y with
  | None => NaN
  | Some Lt => x
  | Some Gt => y
  | Some Eq => match x with S754_zero true => x | _ => y end
  end.

Definition one : number := of_Z 1.
Definition hundred : number := of_Z 100.

End Num.

Declare Scope num_scope.
Delimit Scope num_scope with num.
Infix "+" := Num.add : num_scope.
Infix "-" := Num.sub : num_scope.
Infix "*" := Num.mul : num_scope.
Infix "/" := Num.div : num_scope.

Abbreviation number := Num.number.

(* ================================================================== *)
(** * JavaScript strings *)
(* ================================================================== *)

Module Str.

Definition code (c : ascii) : Z := Z.of_N (N_of_ascii c).

Definition in_range (lo hi : Z) (c : ascii) : bool :=
  (lo <=? code c) && (code c <=? hi).

Definition is_digit (c : ascii) : bool := in_range 48 57 c.

(** [\w]: ASCII letters, digits and the underscore. *)
Definition is_word (c : ascii) : bool :=
  in_range 97 122 c || in_range 65 90 c || is_digit c || (code c =? 95).

(** [\s] restricted to code units below 256. *)
Definition is_space (c : ascii) : bool :=
  in_range 9 13 c || (code c =? 32) || (code c =? 160).

(** Line terminators below 256: the characters [.] does not match. *)
Definition is_newline (c : ascii) : bool :=
  (code c =? 10) || (code c =? 13).

Definition lower (c : ascii) : ascii :=
  if in_range 65 90 c
     || (in_range 192 222 c && negb (code c =? 215))
  then ascii_of_N (Z.to_N (code c + 32))
  else c.

Fixpoint toLowerCase (s : string) : string :=
  match s with
  | EmptyString => EmptyString
  | String c s' => String (lower c) (toLowerCase s')
  end.

(** [s.split(/\W+/)]: the pieces between maximal runs of non-word
    characters; a separator at either end leaves an empty piece there,
    and the empty string splits into one empty piece.  [cur] is the
    piece being read, kept reversed; [in_sep] tells that the previous
    character belonged to a separator. *)
Fixpoint split_W_from (s : string) (cur : string) (in_sep : bool)
  : list string :=
  match s with
  | EmptyString => [String.rev cur]
  | String c s' =>
      if is_word c then split_W_from s' (String c cur) false
      else if in_sep then split_W_from s' cur true
      else String.rev cur :: split_W_from s' EmptyString true
  end.

Definition split_W (s : string) : list string :=
  split_W_from s EmptyString false.

Fixpoint charCodes (s : string) : list Z :=
  match s with
  | EmptyString => []
  | String c s' => code c :: charCodes s'
  end.

End Str.

(* ================================================================== *)
(** * Shared types (types/index.ts) *)
(* ================================================================== *)

Inductive Priority := high | medium | low.
Inductive Status := pending | in_progress | completed.
Inductive ReminderType := deadline | preparation | followup.

#[global] Instance Priority_eq_dec : EqDecision Priority.
Proof. solve_decision. Defined.
#[global] Instance ReminderType_eq_dec : EqDecision ReminderType.
Proof. solve_decision. Defined.

(** Identifiers drawn from [crypto.randomUUID()]. *)
Definition uuid : Type := N.

(** A [Date]: milliseconds since the epoch. *)
Definition Date : Type := Z.

Module Rule.
Record t := mk {
  id : string;
  content : string;
  source : string;
  priority : Z;
  category : option string;
  embedding : option (list number)
}.
Definition with_embedding (r : t) (e : list number) : t :=
  mk (id r) (content r) (source r) (priority r) (category r) (Some e).
End Rule.

Module Task.
Record t := mk {
  id : uuid;
  content : string;
  priority : Priority;
  status : Status;
  dueDate : option Date;
  reminderTime : option Date;
  reminderSent : option bool;
  appliedRules : list string;
  createdAt : Date;
  updatedAt : Date
}.
Definition with_reminderTime (k : t) (d : Date) : t :=
  mk (id k) (content k) (priority k) (status k) (dueDate k) (Some d)
     (reminderSent k) (appliedRules k) (createdAt k) (updatedAt k).
End Task.

Record VectorSearchResult := {
  vsr_rule : Rule.t;
  similarity : number
}.

(* ================================================================== *)
(** * VectorStore (services/vectorStore.ts) *)
(* ================================================================== *)

Module VectorStore.

Record t := mk {
  rules : list Rule.t;
  embeddings : gmap string (list number)
}.

Definition empty : t := mk [] ∅.

(** [x | 0]: reduction to a signed 32-bit integer. *)
Definition ToInt32 (x : Z) : Z :=
  let m := x mod 2 ^ 32 in
  if 2 ^ 31 <=? m then m - 2 ^ 32 else m.

(** The loop of [simpleHash]: [hash] is a 32-bit integer at every
    iteration, [hash << 5] wraps, the subtraction and the addition are
    exact, and [hash & hash] wraps again. *)
Fixpoint simpleHash_loop (codes : list Z) (hash : Z) : Z :=
  match codes with
  | [] => hash
  | char :: rest =>
      let hash := (ToInt32 (Z.shiftl hash 5) - hash) + char in
      let hash := ToInt32 hash in
      simpleHash_loop rest hash
  end.

Definition simpleHash (str : string) : Z :=
  Z.abs (simpleHash_loop (Str.charCodes str) 0).

Definition dimension : nat := 100.

Definition words_of (text : string) : list string :=
  List.filter (fun word => (2 <? String.length word)%nat)
              (Str.split_W (Str.toLowerCase text)).

Definition generateEmbedding (text : string) : list number :=
  let words := words_of text in
  let embedding := repeat Num.zero dimension in
  let embedding :=
    fold_left
      (fun (embedding : list number) word =>
         let hash := Z.rem (simpleHash word) 100 in
         alter (fun v => (v + Num.one / Num.sqrt (Num.of_Z (Z.of_nat (length words))))%num)
               (Z.to_nat hash) embedding)
      words embedding in
  let norm :=
    Num.sqrt (fold_left (fun sum val => (sum + val * val)%num) embedding Num.zero) in
  map (fun val => if Num.gt norm Num.zero then (val / norm)%num else Num.zero)
      embedding.

(** An array read: [undefined] out of range, which arithmetic turns
    into NaN. *)
Definition get (a : list number) (i : nat) : number :=
  default Num.NaN (a !! i).

Definition cosineSimilarity (a b : list number) : number :=
  let '(dotProduct, normA, normB) :=
    fold_left
      (fun '(dotProduct, normA, normB) i =>
         ((dotProduct + get a i * get b i)%num,
          (normA + get a i * get a i)%num,
          (normB + get b i * get b i)%num))
      (seq 0 (length a)) (Num.zero, Num.zero, Num.zero) in
  (dotProduct / (Num.sqrt normA * Num.sqrt normB))%num.

Definition addRule (store : t) (rule : Rule.t) : t :=
  let embedding := generateEmbedding (Rule.content rule) in
  let rule := Rule.with_embedding rule embedding in
  mk (rules store ++ [rule])
     (<[Rule.id rule := embedding]> (embeddings store)).

Definition addRules (store : t) (rs : list Rule.t) : t :=
  fold_left addRule rs store.

(** [Array.prototype.sort] with a comparison function.  The sort is
    stable; a comparison that yields NaN counts as +0; [x] goes after
    [y] when [cmp x y > 0].  This is insertion from the right, the
    order every conforming sort returns when [cmp] is a consistent
    ordering. *)
Section Sort.
Context {A : Type} (cmp : A -> A -> number).

Definition goes_after (x y : A) : bool := Num.gt (cmp x y) Num.zero.

Fixpoint insert (x : A) (l : list A) : list A :=
  match l with
  | [] => [x]
  | y :: l' => if goes_after x y then y :: insert x l' else x :: l
  end.

Definition sort (l : list A) : list A := fold_right insert [] l.

(** [x] may stay before [y]. *)
Definition in_order (x y : A) : Prop := goes_after x y = false.
End Sort.

Definition searchSimilar (store : t) (query : string) (limit : nat)
  : list VectorSearchResult :=
  let queryEmbedding := generateEmbedding query in
  let similarities :=
    omap (fun rule =>
            match Rule.embedding rule with
            | Some e => Some {| vsr_rule := rule;
                                similarity := cosineSimilarity queryEmbedding e |}
            | None => None
            end)
         (rules store) in
  take limit
       (sort (fun a b => (similarity b - similarity a)%num) similarities).

Definition getAllRules (store : t) : list Rule.t := rules store.

Definition clearRules (store : t) : t := mk [] ∅.

End VectorStore.

(* ================================================================== *)
(** * ReminderService (services/reminderService.ts) *)
(* ================================================================== *)

Module Reminder.
Record t := mk {
  id : uuid;
  taskId : uuid;
  message : string;
  scheduledTime : Date;
  priority : Priority;
  sent : bool;
  type : ReminderType
}.
Definition mark_sent (r : t) : t :=
  mk (id r) (taskId r) (message r) (scheduledTime r) (priority r) true (type r).
End Reminder.

(** What the service does to its host: the identifiers drawn so far, the
    console, the browser notifications shown (title, body, tag) when the
    permission is granted, and the [reminderSent] events dispatched on
    [window]. *)
Module Host.
Record t := mk {
  next_uuid : uuid;
  permission_granted : bool;
  console : list string;
  shown : list (string * string * uuid);
  dispatched : list Reminder.t
}.
Definition init (granted : bool) : t := mk 0%N granted [] [] [].

Definition randomUUID (h : t) : uuid * t :=
  (next_uuid h,
   mk (N.succ (next_uuid h)) (permission_granted h) (console h) (shown h)
      (dispatched h)).
End Host.

Definition ms_per_minute : Z := 60 * 1000.
Definition ms_per_hour : Z := 60 * 60 * 1000.

Module ReminderService.

(** [activeTimers] maps a reminder id to its pending timer, recorded
    as the instant at which the host will run the callback. *)
Record t := mk {
  reminders : list Reminder.t;
  activeTimers : gmap uuid Date
}.

Definition empty : t := mk [] ∅.

Definition priorityEmoji (p : Priority) : string :=
  match p with
  | high => "🚨"
  | medium => "⚠️"
  | low => "ℹ️"
  end.

Definition upper_name (p : Priority) : string :=
  match p with
  | high => "HIGH"
  | medium => "MEDIUM"
  | low => "LOW"
  end.

(** [a || b] on strings: [a] unless it is empty. *)
Definition or_else (a b : string) : string :=
  match a with EmptyString => b | _ => a end.

(** The three entries of [typeMessages]. *)
Definition typeMessages (task : Task.t) (key : ReminderType) : string :=
  match key with
  | deadline =>
      priorityEmoji (Task.priority task) +:+ " Task deadline approaching: "
        +:+ Task.content task
  | preparation =>
      priorityEmoji (Task.priority task) +:+ " Time to prepare for: "
        +:+ Task.content task
  | followup =>
      priorityEmoji (Task.priority task) +:+ " Follow up needed on: "
        +:+ Task.content task
  end.

Definition generateReminderMessage (task : Task.t) (type : ReminderType)
  : string :=
  or_else (typeMessages task preparation)
          (or_else (typeMessages task followup) (typeMessages task deadline)).

(** The reminder object is shared between the [reminders] array, the
    timer callback and the dispatched event; it is identified by its
    id, so a write to the object is a write to every entry of the
    array that carries that id. *)
Definition set_sent (rid : uuid) (l : list Reminder.t) : list Reminder.t :=
  map (fun r => if decide (Reminder.id r = rid) then Reminder.mark_sent r else r) l.

Definition sendReminder (svc : t) (h : Host.t) (reminder : Reminder.t)
  : t * Host.t :=
  let console := Host.console h ++ ["🔔 REMINDER: " +:+ Reminder.message reminder] in
  let shown :=
    if Host.permission_granted h
    then Host.shown h ++
         [("TaskMaster AI - " +:+ upper_name (Reminder.priority reminder) +:+ " Priority",
           Reminder.message reminder, Reminder.taskId reminder)]
    else Host.shown h in
  let reminder' := Reminder.mark_sent reminder in
  (mk (set_sent (Reminder.id reminder) (reminders svc))
      (delete (Reminder.id reminder) (activeTimers svc)),
   Host.mk (Host.next_uuid h) (Host.permission_granted h) console shown
           (Host.dispatched h ++ [reminder'])).

Definition scheduleNotification (now : Date) (svc : t) (h : Host.t)
                                (reminder : Reminder.t) : t * Host.t :=
  let delay := Reminder.scheduledTime reminder - now in
  if 0 <? delay then
    (mk (reminders svc)
        (<[Reminder.id reminder := Reminder.scheduledTime reminder]> (activeTimers svc)),
     h)
  else if -300000 <? delay then sendReminder svc h reminder
  else (svc, h).

Definition scheduleReminder (now : Date) (svc : t) (h : Host.t)
                            (task : Task.t) (reminderTime : Date)
                            (type : ReminderType) : t * Host.t :=
  let '(rid, h) := Host.randomUUID h in
  let reminder :=
    Reminder.mk rid (Task.id task) (generateReminderMessage task type)
                reminderTime (Task.priority task) false type in
  scheduleNotification now (mk (reminders svc ++ [reminder]) (activeTimers svc))
                       h reminder.

(** The host runs the callback of a pending timer: the closure holds
    the reminder object the timer was armed for. *)
Definition fire (svc : t) (h : Host.t) (rid : uuid) : t * Host.t :=
  match activeTimers svc !! rid,
        List.find (fun r => bool_decide (Reminder.id r = rid)) (reminders svc) with
  | Some _, Some reminder => sendReminder svc h reminder
  | _, _ => (svc, h)
  end.

(** Stable insertion by ascending [scheduledTime], the order of
    [sort((a, b) => a.scheduledTime.getTime() - b.scheduledTime.getTime())]. *)
Fixpoint insert_by_time (x : Reminder.t) (l : list Reminder.t) : list Reminder.t :=
  match l with
  | [] => [x]
  | y :: l' =>
      if 0 <? Reminder.scheduledTime x - Reminder.scheduledTime y
      then y :: insert_by_time x l'
      else x :: l
  end.

Definition getUpcomingReminders (now : Date) (svc : t) (hours : Z)
  : list Reminder.t :=
  let cutoff := now + hours * 60 * 60 * 1000 in
  fold_right insert_by_time []
    (List.filter
       (fun r => negb (Reminder.sent r)
                 && (Reminder.scheduledTime r <=? cutoff)
                 && (now <=? Reminder.scheduledTime r))
       (reminders svc)).

Definition cancelReminder (svc : t) (reminderId : uuid) : t :=
  let timers :=
    match activeTimers svc !! reminderId with
    | Some _ => delete reminderId (activeTimers svc)
    | None => activeTimers svc
    end in
  mk (List.filter (fun r => negb (bool_decide (Reminder.id r = reminderId)))
                  (reminders svc))
     timers.

Definition cancelTaskReminders (svc : t) (taskId : uuid) : t :=
  let taskReminders :=
    List.filter (fun r => bool_decide (Reminder.taskId r = taskId)) (reminders svc) in
  fold_left (fun svc reminder => cancelReminder svc (Reminder.id reminder))
            taskReminders svc.

(** [new Date(x)] for a time value with a fractional part. *)
Definition newDate (x : Q) : Date :=
  if Qle_bool 0 x then Qfloor x else Qceiling x.

Definition Qmax (x y : Q) : Q := if Qle_bool x y then y else x.

Definition calculateReminderTime (now : Date) (task : Task.t) (priority : Priority)
  : Date :=
  let dueDate := default (now + 24 * 60 * 60 * 1000) (Task.dueDate task) in
  let timeToDue := dueDate - now in
  let effectivePriority :=
    if timeToDue <=? 24 * 60 * 60 * 1000 then high else priority in
  let reminderOffset : Q :=
    match effectivePriority with
    | high =>
        if timeToDue <=? 2 * 60 * 60 * 1000
        then Qmax (inject_Z timeToDue * (1 # 4)) (inject_Z (15 * 60 * 1000))
        else if timeToDue <=? 8 * 60 * 60 * 1000
        then inject_Z (1 * 60 * 60 * 1000)
        else inject_Z (2 * 60 * 60 * 1000)
    | medium =>
        if timeToDue <=? 4 * 60 * 60 * 1000
        then Qmax (inject_Z timeToDue * (1 # 4)) (inject_Z (1 * 60 * 60 * 1000))
        else inject_Z (4 * 60 * 60 * 1000)
    | low =>
        if timeToDue <=? 24 * 60 * 60 * 1000
        then Qmax (inject_Z timeToDue * (1 # 2)) (inject_Z (4 * 60 * 60 * 1000))
        else inject_Z (24 * 60 * 60 * 1000)
    end in
  let reminderTime := newDate (inject_Z dueDate - reminderOffset) in
  if now <? reminderTime then reminderTime else now + 5 * 60 * 1000.

Definition getAllReminders (svc : t) : list Reminder.t := reminders svc.

End ReminderService.

(* ================================================================== *)
(** * Regular expressions *)
(* ================================================================== *)

(** The fragment of the language's regular expressions the agent uses,
    all with the [i] flag, and its backtracking matcher: alternatives
    are tried left to right, quantifiers are greedy, and the first
    success is the match. *)
Module Regex.

Inductive t :=
| Lit (s : string)                      (* literal text, case-insensitive *)
| Class (p : ascii -> bool)             (* one character of a class *)
| Seq (r1 r2 : t)
| Alt (r1 r2 : t)
| Star (p : ascii -> bool)              (* [p*] *)
| Rep (p : ascii -> bool) (lo extra : nat)     (* [p{lo,lo+extra}] *)
| Opt (r : t)                           (* [(?:r)?] *)
| Group (n : nat) (r : t).              (* the n-th capturing group *)

Definition Plus (p : ascii -> bool) : t := Seq (Class p) (Star p).

Fixpoint any_of (l : list string) : t :=
  match l with
  | [] => Class (fun _ => false)
  | [x] => Lit x
  | x :: l' => Alt (Lit x) (any_of l')
  end.

Fixpoint seq_of (l : list t) : t :=
  match l with
  | [] => Lit ""
  | [r] => r
  | r :: l' => Seq r (seq_of l')
  end.

Definition digit : ascii -> bool := Str.is_digit.
Definition space : ascii -> bool := Str.is_space.
Definition dot : ascii -> bool := fun c => negb (Str.is_newline c).

(** Captures: group number to captured text. *)
Definition captures := list (nat * string).

Definition capture (c : captures) (n : nat) : option string :=
  snd <$> List.find (fun e => Nat.eqb (fst e) n) c.

Definition cont := string -> captures -> option captures.

(** [strip l s]: [s] without its prefix [l], compared case-insensitively. *)
Fixpoint strip (l s : string) : option string :=
  match l, s with
  | EmptyString, _ => Some s
  | String a l', String b s' =>
      if Ascii.eqb (Str.lower a) (Str.lower b) then strip l' s' else None
  | String _ _, EmptyString => None
  end.

Fixpoint star (p : ascii -> bool) (s : string) (c : captures) (k : cont)
  : option captures :=
  match s with
  | String a s' =>
      if p a then
        match star p s' c k with
        | Some r => Some r
        | None => k s c
        end
      else k s c
  | EmptyString => k s c
  end.

Fixpoint upto (p : ascii -> bool) (n : nat) (s : string) (c : captures)
              (k : cont) : option captures :=
  match n, s with
  | S n', String a s' =>
      if p a then
        match upto p n' s' c k with
        | Some r => Some r
        | None => k s c
        end
      else k s c
  | _, _ => k s c
  end.

Fixpoint exactly (p : ascii -> bool) (n : nat) (s : string) (c : captures)
                 (k : cont) : option captures :=
  match n with
  | O => k s c
  | S n' =>
      match s with
      | String a s' => if p a then exactly p n' s' c k else None
      | EmptyString => None
      end
  end.

(** The text consumed between [s] and its suffix [s']. *)
Definition consumed (s s' : string) : string :=
  String.substring 0 (String.length s - String.length s') s.

Fixpoint run (r : t) (s : string) (c : captures) (k : cont) {struct r}
  : option captures :=
  match r with
  | Lit l =>
      match strip l s with
      | Some s' => k s' c
      | None => None
      end
  | Class p =>
      match s with
      | String a s' => if p a then k s' c else None
      | EmptyString => None
      end
  | Seq r1 r2 => run r1 s c (fun s' c' => run r2 s' c' k)
  | Alt r1 r2 =>
      match run r1 s c k with
      | Some x => Some x
      | None => run r2 s c k
      end
  | Star p => star p s c k
  | Rep p lo extra => exactly p lo s c (fun s' c' => upto p extra s' c' k)
  | Opt r1 =>
      match run r1 s c k with
      | Some x => Some x
      | None => k s c
      end
  | Group n r1 => run r1 s c (fun s' c' => k s' ((n, consumed s s') :: c'))
  end.

(** [s.match(r)]: the captures of the leftmost match. *)
Fixpoint exec (r : t) (s : string) : option captures :=
  match run r s [] (fun _ c => Some c) with
  | Some c => Some c
  | None =>
      match s with
      | String _ s' => exec r s'
      | EmptyString => None
      end
  end.

(** [r.test(s)]. *)
Definition test (r : t) (s : string) : bool :=
  match exec r s with Some _ => true | None => false end.

End Regex.

(* ================================================================== *)
(** * RAGAgent (services/ragAgent.ts) *)
(* ================================================================== *)

Record RAGResponse := {
  response : string;
  relevantRules : list Rule.t;
  confidence : number
}.

(** A drafted action item of [extractActionItems]. *)
Module Item.
Record t := mk {
  content : string;
  priority : Priority;
  dueDate : option Date
}.
End Item.

Module RAGAgent.

Import Regex.

Record t := mk {
  vectorStore : VectorStore.t;
  reminderService : ReminderService.t
}.

Definition nl : string := String (ascii_of_nat 10) EmptyString.
Definition dquote : string := String (ascii_of_nat 34) EmptyString.

(** ** The patterns, in the order in which the source writes them *)

(* /\d+:\d+|\d+\s*(am|pm)|tomorrow|today|yesterday/i *)
Definition re_time_reference : Regex.t :=
  Alt (seq_of [Plus digit; Lit ":"; Plus digit])
 (Alt (seq_of [Plus digit; Star space; Group 1 (any_of ["am"; "pm"])])
      (any_of ["tomorrow"; "today"; "yesterday"])).

(* /conflict|overlap|same time|schedule/i *)
Definition re_conflict_rule : Regex.t :=
  any_of ["conflict"; "overlap"; "same time"; "schedule"].

(* /urgent|important|priority|deadline/i *)
Definition re_priority_keywords : Regex.t :=
  any_of ["urgent"; "important"; "priority"; "deadline"].

(* /priority|urgent|important|skip|cancel/i *)
Definition re_priority_rule : Regex.t :=
  any_of ["priority"; "urgent"; "important"; "skip"; "cancel"].

(* /conflict|overlap|schedule|time/i *)
Definition re_conflict_filter : Regex.t :=
  any_of ["conflict"; "overlap"; "schedule"; "time"].

(* /reschedule|change time/i, /cancel|skip/i, /check|verify/i *)
Definition re_reschedule : Regex.t := any_of ["reschedule"; "change time"].
Definition re_cancel : Regex.t := any_of ["cancel"; "skip"].
Definition re_check : Regex.t := any_of ["check"; "verify"].

(* /urgent|emergency|asap|critical|immediately/i *)
Definition re_urgent : Regex.t :=
  any_of ["urgent"; "emergency"; "asap"; "critical"; "immediately"].

(* in \d+ hours? *)
Definition in_n_hours : Regex.t :=
  seq_of [Lit "in "; Plus digit; Lit " hour"; Opt (Lit "s")].

(* within.*hour *)
Definition within_hour : Regex.t :=
  seq_of [Lit "within"; Star dot; Lit "hour"].

(* /today|tonight|this evening|in \d+ hours?|within.*hour/i *)
Definition re_within_day : Regex.t :=
  Alt (Lit "today") (Alt (Lit "tonight") (Alt (Lit "this evening")
 (Alt in_n_hours within_hour))).

(* /today|tonight|this evening/i *)
Definition re_today : Regex.t := any_of ["today"; "tonight"; "this evening"].

(* /tomorrow|next day/i *)
Definition re_tomorrow : Regex.t := any_of ["tomorrow"; "next day"].

(* /(?:at|by|before)\s*(\d{1,2})(?::(\d{2}))?\s*(am|pm)/i *)
Definition re_clock_time : Regex.t :=
  seq_of [any_of ["at"; "by"; "before"]; Star space;
          Group 1 (Rep digit 1 1);
          Opt (Seq (Lit ":") (Group 2 (Rep digit 2 0)));
          Star space;
          Group 3 (any_of ["am"; "pm"])].

(* /in\s*(\d+)\s*hours?/i *)
Definition re_hours_from_now : Regex.t :=
  seq_of [Lit "in"; Star space; Group 1 (Plus digit); Star space;
          Lit "hour"; Opt (Lit "s")].

(* /urgent|critical|important|asap|emergency/i *)
Definition re_default_high : Regex.t :=
  any_of ["urgent"; "critical"; "important"; "asap"; "emergency"].

(* /meeting|appointment|deadline|client/i *)
Definition re_default_medium : Regex.t :=
  any_of ["meeting"; "appointment"; "deadline"; "client"].

Definition urgentPatterns : list Regex.t :=
  [ re_today;
    in_n_hours;
    within_hour;
    seq_of [Lit "by "; Plus digit; Lit ":"; Plus digit];
    seq_of [Lit "before "; Plus digit];
    any_of ["urgent"; "asap"; "immediately"; "critical"];
    seq_of [Lit "due"; Star dot; Lit "today"];
    seq_of [Lit "deadline"; Star dot; Lit "today"] ].

(** ** Response generation *)

Definition containsTimeConflict (input : string) (rules : list Rule.t) : bool :=
  let hasTimeReference := test re_time_reference input in
  let hasConflictRule :=
    existsb (fun rule => test re_conflict_rule (Rule.content rule)) rules in
  hasTimeReference && hasConflictRule.

Definition containsPriorityConflict (input : string) (rules : list Rule.t) : bool :=
  let hasPriorityKeywords := test re_priority_keywords input in
  let hasPriorityRules :=
    existsb (fun rule => test re_priority_rule (Rule.content rule)) rules in
  hasPriorityKeywords && hasPriorityRules.

Definition handleTimeConflict (input : string) (rules : list Rule.t) : string :=
  let conflictRules :=
    List.filter (fun rule => test re_conflict_filter (Rule.content rule)) rules in
  "Based on your rules: " +:+ String.concat "; " (map Rule.content conflictRules)
    +:+ ". " +:+ nl
    +:+ "    I recommend checking for schedule conflicts and rescheduling if necessary.".

(** [reduce] without an initial value: a [TypeError] ([None]) on the
    empty array. *)
Definition reduce1 {A : Type} (f : A -> A -> A) (l : list A) : option A :=
  match l with
  | [] => None
  | x :: l' => Some (fold_left f l' x)
  end.

Definition handlePriorityConflict (input : string) (rules : list Rule.t)
  : option string :=
  let priorityRules :=
    List.filter (fun rule => test re_priority_rule (Rule.content rule)) rules in
  highestPriorityRule ←
    reduce1 (fun highest current =>
               if Rule.priority highest <? Rule.priority current
               then current else highest)
            priorityRules;
  Some ("According to your highest priority rule: " +:+ dquote
          +:+ Rule.content highestPriorityRule +:+ dquote +:+ ". " +:+ nl
          +:+ "    This should take precedence over other activities.").

(** [rules[0].content] is a [TypeError] ([None]) on the empty array. *)
Definition generateBasicResponse (input : string) (rules : list Rule.t)
  : option string :=
  mostRelevantRule ← head rules;
  Some ("Based on the rule: " +:+ dquote +:+ Rule.content mostRelevantRule
          +:+ dquote +:+ ", here's what I recommend: " +:+ nl
          +:+ "    Follow this guideline for your situation.").

Definition generateResponse (input : string) (rules : list Rule.t)
  : option string :=
  if containsTimeConflict input rules then Some (handleTimeConflict input rules)
  else if containsPriorityConflict input rules then handlePriorityConflict input rules
  else generateBasicResponse input rules.

Definition calculateConfidence (results : list VectorSearchResult) : number :=
  if Nat.eqb (length results) 0 then Num.zero
  else
    let avgSimilarity :=
      (fold_left (fun sum r => (sum + similarity r)%num) results Num.zero
       / Num.of_Z (Z.of_nat (length results)))%num in
    Num.min (avgSimilarity * Num.hundred)%num Num.hundred.

Definition no_rules_response : string :=
  "I don't have any relevant rules for this input. Please add rules that cover this scenario.".

Definition processUserInput (agent : t) (input : string) : option RAGResponse :=
  let relevantRules := VectorStore.searchSimilar (vectorStore agent) input 3 in
  if Nat.eqb (length relevantRules) 0 then
    Some {| response := no_rules_response;
            relevantRules := [];
            confidence := Num.zero |}
  else
    response ← generateResponse input (map vsr_rule relevantRules);
    Some {| response := response;
            relevantRules := map vsr_rule relevantRules;
            confidence := calculateConfidence relevantRules |}.

(** ** Action items *)

Section Clock.
(** The instant read by [new Date()] and the offset of local time. *)
Variables (now : Date) (tz : Z).

Definition isUrgentTimeframe (input : string) : bool :=
  existsb (fun pattern => test pattern input) urgentPatterns.

(** [d.setHours(h, m, 0, 0)] in local time. *)
Definition setHours (d : Date) (h m : Z) : Date :=
  (d + tz) / (24 * ms_per_hour) * (24 * ms_per_hour)
  + h * ms_per_hour + m * ms_per_minute - tz.

(** [parseInt] of a captured run of digits. *)
Fixpoint parseInt_from (s : string) (acc : Z) : Z :=
  match s with
  | String c s' =>
      if Str.is_digit c then parseInt_from s' (acc * 10 + (Str.code c - 48))
      else acc
  | EmptyString => acc
  end.
Definition parseInt (s : string) : Z := parseInt_from s 0.

Definition extractDueDate (input : string) : option Date :=
  if test re_today input then
    Some (setHours now 18 0)
  else if test re_tomorrow input then
    Some (now + 24 * 60 * 60 * 1000)
  else
    match exec re_clock_time input with
    | Some timeMatch =>
        let hours := parseInt (default "" (capture timeMatch 1)) in
        let minutes := parseInt (default "0" (capture timeMatch 2)) in
        let ampm := Str.toLowerCase (default "" (capture timeMatch 3)) in
        let hours := if String.eqb ampm "pm" && negb (hours =? 12)
                     then hours + 12 else hours in
        let hours := if String.eqb ampm "am" && (hours =? 12)
                     then 0 else hours in
        let targetTime := setHours now hours minutes in
        let targetTime := if targetTime <=? now
                          then targetTime + 24 * ms_per_hour
                          else targetTime in
        Some targetTime
    | None =>
        match exec re_hours_from_now input with
        | Some hoursMatch =>
            let hours := parseInt (default "" (capture hoursMatch 1)) in
            Some (now + hours * 60 * 60 * 1000)
        | None => None
        end
    end.

Definition calculateDefaultPriority (input : string) (dueDate : option Date)
  : Priority :=
  if match dueDate with
     | Some d => d - now <=? 24 * 60 * 60 * 1000
     | None => false
     end
  then high
  else if test re_default_high input then high
  else if test re_default_medium input then medium
  else low.

Definition extractActionItems (response input : string) : list Item.t :=
  let items : list Item.t := [] in
  let isUrgentTime := isUrgentTimeframe input in
  let suggestedDueDate := extractDueDate input in
  let items :=
    if test re_reschedule response then
      items ++ [Item.mk "Reschedule conflicting appointment"
                        (if isUrgentTime then high else medium)
                        (Some (default (now + 2 * 60 * 60 * 1000) suggestedDueDate))]
    else items in
  let items :=
    if test re_cancel response then
      items ++ [Item.mk "Cancel lower priority activity"
                        (if isUrgentTime then high else medium)
                        (Some (default (now + 1 * 60 * 60 * 1000) suggestedDueDate))]
    else items in
  let items :=
    if test re_check response then
      items ++ [Item.mk "Verify schedule and requirements"
                        (if isUrgentTime then high else medium)
                        (Some (default (now + 4 * 60 * 60 * 1000) suggestedDueDate))]
    else items in
  let items :=
    if test re_urgent input then
      map (fun item => Item.mk (Item.content item) high
                               (Some (now + 30 * 60 * 1000)))
          items
    else items in
  let items :=
    if isUrgentTime || test re_within_day input then
      map (fun item =>
             Item.mk (Item.content item) high
                     (match Item.dueDate item with
                      | Some d => Some d
                      | None =>
                          Some (default (now + 8 * 60 * 60 * 1000) suggestedDueDate)
                      end))
          items
    else items in
  if Nat.eqb (length items) 0 then
    let defaultPriority := calculateDefaultPriority input suggestedDueDate in
    items ++ [Item.mk ("Handle: " +:+ input) defaultPriority
                      (Some (default (now + 24 * 60 * 60 * 1000) suggestedDueDate))]
  else items.

(** ** Task recommendations *)

(** First loop of [generateTaskRecommendations]: one task per item. *)
Definition push_task (appliedRules : list string)
                     (acc : list Task.t * Host.t) (item : Item.t)
  : list Task.t * Host.t :=
  let '(tasks, h) := acc in
  let '(tid, h) := Host.randomUUID h in
  (tasks ++ [Task.mk tid (Item.content item) (Item.priority item) pending
                     (Item.dueDate item) None None appliedRules now now],
   h).

(** Second loop: a reminder for every task with a due date.  The
    task is updated in place in the array that is returned. *)
Definition schedule_task (acc : list Task.t * ReminderService.t * Host.t)
                         (task : Task.t)
  : list Task.t * ReminderService.t * Host.t :=
  let '(done, svc, h) := acc in
  match Task.dueDate task with
  | Some _ =>
      let reminderTime :=
        ReminderService.calculateReminderTime now task (Task.priority task) in
      let task := Task.with_reminderTime task reminderTime in
      let '(svc, h) :=
        ReminderService.scheduleReminder now svc h task reminderTime deadline in
      (done ++ [task], svc, h)
  | None => (done ++ [task], svc, h)
  end.

Definition generateTaskRecommendations (agent : t) (h : Host.t) (input : string)
  : option (list Task.t * t * Host.t) :=
  ragResponse ← processUserInput agent input;
  let actionItems := extractActionItems (response ragResponse) input in
  let '(tasks, h) :=
    fold_left (push_task (map Rule.id (relevantRules ragResponse)))
              actionItems ([], h) in
  let '(tasks, svc, h) :=
    fold_left schedule_task tasks ([], reminderService agent, h) in
  Some (tasks, mk (vectorStore agent) svc, h).

End Clock.

Definition getPriorityFromRules (rules : list Rule.t) : Priority :=
  match map Rule.priority rules with
  | [] => medium
  | p :: ps =>
      let maxPriority := fold_left Z.max ps p in
      if 8 <=? maxPriority then high
      else if 4 <=? maxPriority then medium
      else low
  end.

End RAGAgent.

(* ================================================================== *)
(** * DocumentProcessor (services/documentProcessor.ts) *)
(* ================================================================== *)

(** The part of the processor that works on the text of a file:
    reading the file, and the PDF and JSON decoders, are outside the
    model.  The text of a drawn identifier is [uuid_text] of the
    counter's value. *)
Module DocumentProcessor.

Import Regex.

Definition newline : ascii := ascii_of_nat 10.
Definition comma : ascii := ascii_of_nat 44.

(** [s.split(sep)] for a one-character separator: the pieces between
    the separators; the empty string splits into one empty piece. *)
Fixpoint split (sep : ascii) (s : string) : list string :=
  match s with
  | EmptyString => [EmptyString]
  | String c s' =>
      if Ascii.eqb c sep then EmptyString :: split sep s'
      else
        match split sep s' with
        | p :: ps => String c p :: ps
        | [] => [String c EmptyString]
        end
  end.

(** [l.join(sep)]. *)
Definition join (sep : string) (l : list string) : string :=
  String.concat sep l.

Fixpoint trimStart (s : string) : string :=
  match s with
  | EmptyString => EmptyString
  | String c s' => if Str.is_space c then trimStart s' else s
  end.

Fixpoint trimEnd (s : string) : string :=
  match s with
  | EmptyString => EmptyString
  | String c s' =>
      match trimEnd s' with
      | EmptyString => if Str.is_space c then EmptyString else String c EmptyString
      | t => String c t
      end
  end.

(** [s.trim()]. *)
Definition trim (s : string) : string := trimEnd (trimStart s).

(** The truth value of a string: the empty string is false. *)
Definition truthy (s : string) : bool :=
  match s with EmptyString => false | String _ _ => true end.

(** A pattern either starts with [^] or may match anywhere. *)
Inductive pattern :=
| At_start (r : Regex.t)
| Anywhere (r : Regex.t).

Definition pattern_test (p : pattern) (s : string) : bool :=
  match p with
  | At_start r =>
      match run r s [] (fun _ c => Some c) with Some _ => true | None => false end
  | Anywhere r => test r s
  end.

(** [extractCSVContent], on the text of the file. *)
Definition extractCSVContent (text : string) : string :=
  join (String newline EmptyString)
       (map (fun line => join " | " (split comma line)) (split newline text)).

Definition extractTextContent (text : string) : string := text.

Definition rulePatterns : list pattern :=
  [ At_start (seq_of [Lit "if"; Plus space]);
    At_start (seq_of [Lit "when"; Plus space]);
    At_start (seq_of [Lit "rule"; Star space; Star digit; Star space; Lit ":"]);
    At_start (seq_of [Lit "always"; Plus space]);
    At_start (seq_of [Lit "never"; Plus space]);
    At_start (seq_of [Plus digit; Lit "."; Plus space]);
    At_start (seq_of [Lit "-"; Plus space]);
    Anywhere (any_of ["priority"; "urgent"; "important"; "deadline"]) ].

Definition isRule (line : string) : bool :=
  existsb (fun p => pattern_test p line) rulePatterns
  || (20 <? Z.of_nat (String.length line)).

Definition extractPriority (rule : string) : Z :=
  if test (any_of ["urgent"; "critical"; "high priority"]) rule then 10
  else if test (any_of ["important"; "medium priority"]) rule then 5
  else if test (any_of ["low priority"; "optional"]) rule then 1
  else 3.

Definition extractCategory (rule : string) : option string :=
  if test (any_of ["meeting"; "appointment"; "schedule"]) rule then Some "scheduling"
  else if test (any_of ["deadline"; "due date"; "time"]) rule then Some "time-management"
  else if test (any_of ["health"; "gym"; "exercise"]) rule then Some "health"
  else if test (any_of ["work"; "project"; "task"]) rule then Some "work"
  else None.

Inductive DocumentType := pdf | json | csv | txt.

Definition getDocumentType (mimeType : string) : DocumentType :=
  if String.eqb mimeType "application/pdf" then pdf
  else if String.eqb mimeType "application/json" then json
  else if String.eqb mimeType "text/csv" then csv
  else txt.

Section Identifiers.

(** The text of a drawn identifier. *)
Variable uuid_text : uuid -> string.

Definition rule_of_line (fileType : string) (i : uuid) (line : string) : Rule.t :=
  Rule.mk (uuid_text i) line fileType (extractPriority line)
          (extractCategory line) None.

(** One turn of the loop of [extractRules]. *)
Definition extractRules_step (fileType : string)
    (acc : list Rule.t * Host.t) (line0 : string) : list Rule.t * Host.t :=
  let line := trim line0 in
  if isRule line then
    let (i, h') := Host.randomUUID acc.2 in
    (acc.1 ++ [rule_of_line fileType i line], h')
  else acc.

Definition extractRules (content fileType : string) (h : Host.t)
  : list Rule.t * Host.t :=
  let lines :=
    List.filter (fun line => truthy (trim line)) (split newline content) in
  fold_left (extractRules_step fileType) lines ([], h).

End Identifiers.

End DocumentProcessor.

(* ================================================================== *)
(** * ReminderPanel (components/ReminderPanel.tsx) *)
(* ================================================================== *)

(** The list the panel shows: [updateReminders] loads it from the
    service, [dismissReminder] cancels in the service and filters the
    list in place. *)
Module ReminderPanel.
Import ReminderService.

Definition updateReminders (now : Date) (reminderService : ReminderService.t)
  : list Reminder.t :=
  getUpcomingReminders now reminderService 24.

Definition dismissReminder (reminderService : ReminderService.t)
    (upcomingReminders : list Reminder.t) (reminderId : uuid)
  : ReminderService.t * list Reminder.t :=
  (cancelReminder reminderService reminderId,
   List.filter (fun r => negb (bool_decide (Reminder.id r = reminderId)))
               upcomingReminders).

End ReminderPanel.


(* ================================================================== *)
(** * Vocabulary of the properties *)
(* ================================================================== *)

Module NumSpec.

Import Num.

(** [+0] or NaN: what a sum of products with a zero vector can be. *)
Definition zero_or_nan (x : number) : Prop := x = zero \/ x = NaN.

(** A zero of either sign, or NaN. *)
Definition any_zero_or_nan (x : number) : Prop :=
  (exists s, x = S754_zero s) \/ x = NaN.

(** [x] is NaN or carries the sign [s]. *)
Definition sign_or_nan (s : bool) (x : number) : Prop :=
  match x with
  | S754_nan => True
  | S754_zero s' | S754_infinity s' | S754_finite s' _ _ => s' = s
  end.

(** NaN or not below zero. *)
Definition nonneg (x : number) : Prop := sign_or_nan false x.

(** NaN, or a number of the closed interval from 0 to 100. *)
Definition nan_or_percentage (x : number) : Prop :=
  is_nan x = true \/ (le zero x = true /\ le x hundred = true).

(** No later element is above an earlier one. *)
Definition non_increasing (l : list number) : Prop :=
  forall i j x y,
    (i < j)%nat -> l !! i = Some x -> l !! j = Some y -> le y x = true.

End NumSpec.

Module IndexSpec.

Import VectorStore.

(** The body of the loop of [cosineSimilarity]. *)
Definition cos_step (a b : list number)
  : number * number * number -> nat -> number * number * number :=
  fun '(dotProduct, normA, normB) i =>
    ((dotProduct + get a i * get b i)%num,
     (normA + get a i * get a i)%num,
     (normB + get b i * get b i)%num).

(** A store whose rules all carry the fingerprint of their content:
    what [addRules] builds from the empty store. *)
Definition indexed (store : VectorStore.t) : Prop :=
  Forall (fun r => Rule.embedding r = Some (generateEmbedding (Rule.content r)))
         (rules store).

(** The number of entries of a rule list that carry the id [i]. *)
Definition count_id (i : string) (l : list Rule.t) : nat :=
  length (List.filter (fun r => String.eqb (Rule.id r) i) l).

(** Sample rules.  No word of [terse_rule] is longer than two
    characters; [gym_rule] shares no bucket with "urgent meeting". *)
Definition room_rule : Rule.t :=
  Rule.mk "r1" "Always book the meeting room early" "txt" 3 None None.
Definition terse_rule : Rule.t :=
  Rule.mk "r2" "If so, do it" "txt" 3 None None.
Definition urgent_rule : Rule.t :=
  Rule.mk "r3" "Urgent meeting" "txt" 10 None None.
Definition gym_rule : Rule.t :=
  Rule.mk "g1" "gym workout" "txt" 3 None None.

Definition mixed_store : VectorStore.t :=
  addRules VectorStore.empty [room_rule; terse_rule; urgent_rule].
Definition terse_store : VectorStore.t :=
  addRules VectorStore.empty [terse_rule].
Definition gym_store : VectorStore.t :=
  addRules VectorStore.empty [gym_rule].

End IndexSpec.

Module ReminderSpec.

Import ReminderService.

(** [task.dueDate || now + 24h]. *)
Definition dueDate_or_default (now : Date) (task : Task.t) : Date :=
  default (now + 24 * 60 * 60 * 1000) (Task.dueDate task).

(** The offset [calculateReminderTime] subtracts from the due date. *)
Definition reminderOffset (now : Date) (task : Task.t) (priority : Priority) : Q :=
  let dueDate := dueDate_or_default now task in
  let timeToDue := dueDate - now in
  let effectivePriority :=
    if timeToDue <=? 24 * 60 * 60 * 1000 then high else priority in
  match effectivePriority with
  | high =>
      if timeToDue <=? 2 * 60 * 60 * 1000
      then Qmax (inject_Z timeToDue * (1 # 4)) (inject_Z (15 * 60 * 1000))
      else if timeToDue <=? 8 * 60 * 60 * 1000
      then inject_Z (1 * 60 * 60 * 1000)
      else inject_Z (2 * 60 * 60 * 1000)
  | medium =>
      if timeToDue <=? 4 * 60 * 60 * 1000
      then Qmax (inject_Z timeToDue * (1 # 4)) (inject_Z (1 * 60 * 60 * 1000))
      else inject_Z (4 * 60 * 60 * 1000)
  | low =>
      if timeToDue <=? 24 * 60 * 60 * 1000
      then Qmax (inject_Z timeToDue * (1 # 2)) (inject_Z (4 * 60 * 60 * 1000))
      else inject_Z (24 * 60 * 60 * 1000)
  end.

(** 2026-01-01T10:00:00Z. *)
Definition ten_o_clock : Date := 1767261600000.

Definition report_task (p : Priority) (due : Date) : Task.t :=
  Task.mk 7%N "Submit report" p pending (Some due) None None [] ten_o_clock
          ten_o_clock.

(** A service holding one armed deadline reminder, and that reminder. *)
Definition report_reminder : Reminder.t :=
  Reminder.mk 0%N 7%N
              (generateReminderMessage (report_task high (ten_o_clock + 10 * ms_per_hour))
                                       deadline)
              (ten_o_clock + 8 * ms_per_hour) high false deadline.

Definition armed : ReminderService.t * Host.t :=
  scheduleReminder ten_o_clock ReminderService.empty (Host.init false)
                   (report_task high (ten_o_clock + 10 * ms_per_hour))
                   (ten_o_clock + 8 * ms_per_hour) deadline.

End ReminderSpec.

Module AgentSpec.

Import RAGAgent.

(** The mean similarity of a retrieved set, as the specification
    words it: the sum of the similarities over their number. *)
Definition meanSimilarity (results : list VectorSearchResult) : number :=
  (fold_left (fun sum r => (sum + similarity r)%num) results Num.zero
   / Num.of_Z (Z.of_nat (length results)))%num.

(** The rules [processUserInput] retrieves. *)
Definition retrieved (agent : RAGAgent.t) (input : string)
  : list VectorSearchResult :=
  VectorStore.searchSimilar (vectorStore agent) input 3.

(** The item [extractActionItems] falls back to. *)
Definition defaultItem (now : Date) (tz : Z) (input : string) : Item.t :=
  Item.mk ("Handle: " +:+ input)
          (calculateDefaultPriority now input (extractDueDate now tz input))
          (Some (default (now + 24 * 60 * 60 * 1000) (extractDueDate now tz input))).

(** The response names one of the action verbs the extraction looks for. *)
Definition names_action (response : string) : bool :=
  Regex.test re_reschedule response || Regex.test re_cancel response
  || Regex.test re_check response.

(** What a task shows of the item it was built from. *)
Definition drafted (task : Task.t) : string * Priority * option Date :=
  (Task.content task, Task.priority task, Task.dueDate task).

(** The tasks built from [items] with identifiers drawn from [n] on. *)
Fixpoint tasks_from (now : Date) (appliedRules : list string) (n : uuid)
                    (items : list Item.t) : list Task.t :=
  match items with
  | [] => []
  | item :: rest =>
      Task.mk n (Item.content item) (Item.priority item) pending
              (Item.dueDate item) None None appliedRules now now
      :: tasks_from now appliedRules (N.succ n) rest
  end.

Definition with_reminder (now : Date) (task : Task.t) : Task.t :=
  Task.with_reminderTime task
    (ReminderService.calculateReminderTime now task (Task.priority task)).

(** The reminders scheduled for [tasks] with identifiers drawn from
    [n] on. *)
Fixpoint reminders_for (now : Date) (n : uuid) (tasks : list Task.t)
  : list Reminder.t :=
  match tasks with
  | [] => []
  | task :: rest =>
      Reminder.mk n (Task.id task)
                  (ReminderService.generateReminderMessage
                     (with_reminder now task) deadline)
                  (ReminderService.calculateReminderTime now task (Task.priority task))
                  (Task.priority task) false deadline
      :: reminders_for now (N.succ n) rest
  end.

(** The host after [k] more identifiers were drawn. *)
Definition advance (h : Host.t) (k : nat) : Host.t :=
  Host.mk (Host.next_uuid h + N.of_nat k)%N (Host.permission_granted h)
          (Host.console h) (Host.shown h) (Host.dispatched h).

(** The reminder is not sent and its timer is pending in [timers]. *)
Definition armed_in (timers : gmap uuid Date) (r : Reminder.t) : Prop :=
  timers !! Reminder.id r = Some (Reminder.scheduledTime r)
  /\ Reminder.sent r = false.

(** The reminders among [l] that belong to the task [tid]. *)
Definition reminders_of (tid : uuid) (l : list Reminder.t) : list Reminder.t :=
  List.filter (fun r => bool_decide (Reminder.taskId r = tid)) l.

Definition gym_agent : RAGAgent.t :=
  RAGAgent.mk IndexSpec.gym_store ReminderService.empty.

Definition urgent_input : string := "urgent deadline for project due today".

End AgentSpec.

Module StoreSpec.
Import VectorStore.

(** The rule added last among [rs] with the id [i]. *)
Definition latest (i : string) (rs : list Rule.t) : option Rule.t :=
  List.find (fun r => String.eqb (Rule.id r) i) (rev rs).

(** The result [searchSimilar] builds for one rule of an indexed store. *)
Definition scored (query : string) (rule : Rule.t) : VectorSearchResult :=
  {| vsr_rule := rule;
     similarity := cosineSimilarity (generateEmbedding query)
                                    (generateEmbedding (Rule.content rule)) |}.

End StoreSpec.

Module SchedulerSpec.
Import ReminderService.

(** The test of [getUpcomingReminders]. *)
Definition upcoming (now : Date) (hours : Z) (r : Reminder.t) : bool :=
  negb (Reminder.sent r)
  && (Reminder.scheduledTime r <=? now + hours * 60 * 60 * 1000)
  && (now <=? Reminder.scheduledTime r).

(** [a] is scheduled no later than [b]. *)
Definition no_later (a b : Reminder.t) : Prop :=
  Reminder.scheduledTime a <= Reminder.scheduledTime b.

(** The reminder [scheduleReminder] creates. *)
Definition new_reminder (h : Host.t) (task : Task.t) (reminderTime : Date)
                        (type : ReminderType) : Reminder.t :=
  Reminder.mk (Host.next_uuid h) (Task.id task)
              (generateReminderMessage task type) reminderTime
              (Task.priority task) false type.

(** How long before the due date a task more than a day away is
    recalled. *)
Definition lead_time (p : Priority) : Z :=
  match p with
  | high => 2 * 60 * 60 * 1000
  | medium => 4 * 60 * 60 * 1000
  | low => 24 * 60 * 60 * 1000
  end.

End SchedulerSpec.

Module EngineSpec.
Import RAGAgent.

(** The priority the most important rule of a set gives it. *)
Definition priority_of_set (rules : list Rule.t) : Priority :=
  match rules with
  | [] => medium
  | _ :: _ =>
      if existsb (fun r => 8 <=? Rule.priority r) rules then high
      else if existsb (fun r => 4 <=? Rule.priority r) rules then medium
      else low
  end.

(** The milliseconds of local time elapsed since local midnight. *)
Definition time_of_day (now : Date) (tz : Z) : Z := (now + tz) mod (24 * ms_per_hour).


End EngineSpec.

Module DocumentSpec.
Import DocumentProcessor.


(** [s] with every occurrence of the character [sep] replaced by [d]. *)
Fixpoint replace_char (sep : ascii) (d : string) (s : string) : string :=
  match s with
  | EmptyString => EmptyString
  | String c s' =>
      if Ascii.eqb c sep then d +:+ replace_char sep d s'
      else String c (replace_char sep d s')
  end.

Fixpoint all_space (s : string) : bool :=
  match s with
  | EmptyString => true
  | String c s' => Str.is_space c && all_space s'
  end.

Fixpoint mentions (c : ascii) (s : string) : bool :=
  match s with
  | EmptyString => false
  | String a s' => Ascii.eqb a c || mentions c s'
  end.

(** A rule without its identifier. *)
Definition body (r : Rule.t) : string * string * Z * option string :=
  (Rule.content r, Rule.source r, Rule.priority r, Rule.category r).

(** The identifiers drawn by [n] calls starting from host [h]. *)
Definition draws (h : Host.t) (n : nat) : list uuid :=
  map (fun k => (Host.next_uuid h + N.of_nat k)%N) (seq 0 n).

Definition two_lines (a b : string) : string :=
  a +:+ String newline b.

(** [s] does not begin with white space. *)
Definition starts_clean (s : string) : bool :=
  match s with
  | EmptyString => true
  | String c _ => negb (Str.is_space c)
  end.

End DocumentSpec.

(* ================================================================== *)
(** * Numbers *)
(* ================================================================== *)

Create HintDb numfacts.

Module NumFacts.

Import Num NumSpec.

Lemma zero_is_zero_or_nan : zero_or_nan zero.
Proof. left; reflexivity. Qed.

Lemma nan_is_zero_or_nan : zero_or_nan NaN.
Proof. right; reflexivity. Qed.

Lemma mul_zero_r x y : zero_or_nan y -> any_zero_or_nan (x * y)%num.
Proof.
  intros [-> | ->]; destruct x as [s | s | | s m e]; cbn;
    first [ left; eexists; reflexivity | right; reflexivity ].
Qed.

Lemma mul_zero_l x y : zero_or_nan x -> any_zero_or_nan (x * y)%num.
Proof.
  intros [-> | ->]; destruct y as [s | s | | s m e]; cbn;
    first [ left; eexists; reflexivity | right; reflexivity ].
Qed.

Lemma add_zero_acc d p :
  zero_or_nan d -> any_zero_or_nan p -> zero_or_nan (d + p)%num.
Proof.
  intros [-> | ->] [[s ->] | ->]; try destruct s; cbn;
    first [ left; reflexivity | right; reflexivity ].
Qed.

Lemma sqrt_zero_or_nan x : zero_or_nan x -> zero_or_nan (sqrt x).
Proof. intros [-> | ->]; [left | right]; reflexivity. Qed.

Lemma div_zero_zero d q :
  zero_or_nan d -> any_zero_or_nan q -> (d / q)%num = NaN.
Proof. intros [-> | ->] [[s ->] | ->]; reflexivity. Qed.

(** *** Signs survive rounding *)

Lemma binary_round_aux_sign s m e l :
  sign_or_nan s (binary_round_aux prec emax s m e l).
Proof.
  unfold binary_round_aux.
  destruct (shr_fexp prec emax m e l) as [mrs' e'].
  destruct (shr_fexp prec emax _ e' loc_Exact) as [mrs'' e''].
  destruct (shr_m mrs'') as [|p|p]; cbn; auto.
  destruct (e'' <=? emax - prec); cbn; auto.
Qed.

Lemma binary_round_sign s m e : sign_or_nan s (binary_round prec emax s m e).
Proof.
  unfold binary_round. destruct (shl_align _ _ _) as [mz ez].
  apply binary_round_aux_sign.
Qed.

Lemma of_Z_nonneg n : 0 <= n -> nonneg (of_Z n).
Proof.
  intros Hn. unfold of_Z, binary_normalize. destruct n as [|p|p]; try lia.
  - reflexivity.
  - apply binary_round_sign.
Qed.

Lemma zero_nonneg : nonneg zero.
Proof. reflexivity. Qed.

Lemma nan_nonneg : nonneg NaN.
Proof. exact I. Qed.

Lemma one_nonneg : nonneg one.
Proof. reflexivity. Qed.

Lemma hundred_nonneg : nonneg hundred.
Proof. reflexivity. Qed.

Lemma add_nonneg x y : nonneg x -> nonneg y -> nonneg (x + y)%num.
Proof.
  destruct x as [sx|sx| |sx mx ex], y as [sy|sy| |sy my ey]; cbn;
    intros Hx Hy; subst; cbn; auto.
  unfold binary_normalize.
  destruct (shl_align mx ex (Z.min ex ey)) as [m1 e1].
  destruct (shl_align my ey (Z.min ex ey)) as [m2 e2]. cbn.
  apply binary_round_sign.
Qed.

Lemma mul_nonneg x y : nonneg x -> nonneg y -> nonneg (x * y)%num.
Proof.
  destruct x as [sx|sx| |sx mx ex], y as [sy|sy| |sy my ey]; cbn;
    intros Hx Hy; subst; cbn; auto.
  apply (binary_round_aux_sign false).
Qed.

Lemma div_nonneg x y : nonneg x -> nonneg y -> nonneg (x / y)%num.
Proof.
  destruct x as [sx|sx| |sx mx ex], y as [sy|sy| |sy my ey]; cbn;
    intros Hx Hy; subst; cbn; auto.
  destruct (SFdiv_core_binary prec emax (Z.pos mx) ex (Z.pos my) ey) as [[mz ez] lz].
  apply (binary_round_aux_sign false).
Qed.

Lemma sqrt_nonneg x : nonneg x -> nonneg (sqrt x).
Proof.
  destruct x as [sx|sx| |sx mx ex]; cbn; intros Hx; subst; cbn; auto.
  destruct (SFsqrt_core_binary prec emax (Z.pos mx) ex) as [[mz ez] lz].
  apply binary_round_aux_sign.
Qed.

(** [Math.min(x, 100)] of a value that is not negative. *)
Lemma min_hundred_range x : nonneg x -> nan_or_percentage (min x hundred).
Proof.
  intros Hx. unfold nan_or_percentage, min.
  destruct (SFcompare x hundred) as [[| |]|] eqn:E.
  - right. destruct x as [sx|sx| |sx mx ex]; cbn in Hx; subst; try discriminate;
      split; reflexivity.
  - right. destruct x as [sx|sx| |sx mx ex]; cbn in Hx; subst; try discriminate.
    + split; reflexivity.
    + split; [reflexivity|]. unfold le, SFleb. rewrite E. reflexivity.
  - right. split; reflexivity.
  - left. reflexivity.
Qed.

(** A list of two numbers or more that holds NaN is not non-increasing,
    wherever NaN stands: no comparison with NaN holds. *)
Lemma nan_not_non_increasing l :
  In NaN l -> (2 <= length l)%nat -> ~ non_increasing l.
Proof.
  intros Hin Hlen Hs. apply list_elem_of_In, list_elem_of_lookup in Hin as [k Hk].
  destruct k as [|k].
  - destruct l as [|x [|y l]]; cbn in Hlen; try lia.
    specialize (Hs 0%nat 1%nat x y ltac:(lia) eq_refl eq_refl).
    cbn in Hk. injection Hk as ->. destruct y; discriminate.
  - destruct l as [|x l]; [discriminate|].
    specialize (Hs 0%nat (S k) x NaN ltac:(lia) eq_refl Hk). discriminate.
Qed.

End NumFacts.

#[export] Hint Resolve NumFacts.zero_is_zero_or_nan NumFacts.nan_is_zero_or_nan
  NumFacts.mul_zero_r NumFacts.mul_zero_l NumFacts.add_zero_acc
  NumFacts.sqrt_zero_or_nan NumFacts.zero_nonneg NumFacts.nan_nonneg
  NumFacts.add_nonneg NumFacts.mul_nonneg NumFacts.div_nonneg
  NumFacts.sqrt_nonneg NumFacts.one_nonneg NumFacts.hundred_nonneg
  NumFacts.of_Z_nonneg : numfacts.

(* ================================================================== *)
(** * The similarity index *)
(* ================================================================== *)

Module IndexFacts.

Import VectorStore NumSpec IndexSpec NumFacts.

(** ** Fingerprints *)

Lemma generateEmbedding_no_words text :
  words_of text = [] -> generateEmbedding text = repeat Num.zero dimension.
Proof.
  intros Hw. unfold generateEmbedding. rewrite Hw. cbn [fold_left].
  vm_compute. reflexivity.
Qed.

Lemma bump_nonneg (v : number) (words : list string) (e : list number) :
  nonneg v -> Forall nonneg e ->
  Forall nonneg
    (fold_left
       (fun (embedding : list number) word =>
          alter (fun x => (x + v)%num)
                (Z.to_nat (Z.rem (simpleHash word) 100)) embedding)
       words e).
Proof.
  intros Hv. revert e. induction words as [|w ws IH]; intros e He; cbn.
  - exact He.
  - apply IH. apply Forall_alter; auto with numfacts.
Qed.

Lemma sum_squares_nonneg (e : list number) (acc : number) :
  nonneg acc -> Forall nonneg e ->
  nonneg (fold_left (fun sum val => (sum + val * val)%num) e acc).
Proof.
  revert acc. induction e as [|x e IH]; intros acc Ha He; cbn.
  - exact Ha.
  - inversion He; subst. apply IH; auto with numfacts.
Qed.

Lemma generateEmbedding_nonneg text : Forall nonneg (generateEmbedding text).
Proof.
  unfold generateEmbedding.
  set (words := words_of text).
  set (v := (Num.one / Num.sqrt (Num.of_Z (Z.of_nat (length words))))%num).
  assert (Hv : nonneg v).
  { subst v. apply div_nonneg; auto with numfacts.
    apply sqrt_nonneg, of_Z_nonneg. lia. }
  assert (He : Forall nonneg
                 (fold_left
                    (fun (embedding : list number) word =>
                       alter (fun x => (x + v)%num)
                             (Z.to_nat (Z.rem (simpleHash word) 100)) embedding)
                    words (repeat Num.zero dimension))).
  { apply bump_nonneg; [exact Hv|]. apply Forall_forall. intros x Hx.
    apply list_elem_of_In, repeat_spec in Hx. subst. apply zero_nonneg. }
  apply Forall_map. eapply Forall_impl; [exact He|]. intros x Hx. cbn.
  destruct (Num.gt _ _); auto with numfacts.
  apply div_nonneg; [exact Hx|].
  apply sqrt_nonneg, sum_squares_nonneg; auto with numfacts.
Qed.

(** ** The loop of [cosineSimilarity] *)

Lemma cosineSimilarity_eq a b :
  cosineSimilarity a b =
  let '(d, na, nb) :=
    fold_left (cos_step a b) (seq 0 (length a)) (Num.zero, Num.zero, Num.zero) in
  (d / (Num.sqrt na * Num.sqrt nb))%num.
Proof. reflexivity. Qed.

Lemma get_repeat_zero n i : zero_or_nan (get (repeat Num.zero n) i).
Proof.
  unfold get. destruct (repeat Num.zero n !! i) as [x|] eqn:E; cbn.
  - apply list_elem_of_lookup_2, list_elem_of_In, repeat_spec in E.
    subst; auto with numfacts.
  - auto with numfacts.
Qed.

Lemma get_repeat_zero_in n i : (i < n)%nat -> get (repeat Num.zero n) i = Num.zero.
Proof.
  intros Hi. unfold get. destruct (repeat Num.zero n !! i) as [x|] eqn:E; cbn.
  - apply list_elem_of_lookup_2, list_elem_of_In, repeat_spec in E. exact E.
  - apply lookup_ge_None in E. rewrite repeat_length in E. lia.
Qed.

Lemma get_nonneg a i : Forall nonneg a -> nonneg (get a i).
Proof.
  intros Ha. unfold get. destruct (a !! i) as [x|] eqn:E; cbn.
  - eapply Forall_lookup_1; eauto.
  - exact I.
Qed.

Lemma cos_loop_zero_r a b l acc :
  (forall i, zero_or_nan (get b i)) ->
  zero_or_nan (acc.1.1) -> zero_or_nan (acc.2) ->
  let r := fold_left (cos_step a b) l acc in
  zero_or_nan (r.1.1) /\ zero_or_nan (r.2).
Proof.
  intros Hb. revert acc.
  induction l as [|i l IH]; intros [[d na] nb] Hd Hn; cbn in *.
  - auto.
  - apply IH; cbn; auto with numfacts.
Qed.

Lemma cos_loop_zero_l a b l acc :
  (forall i, In i l -> get a i = Num.zero) ->
  zero_or_nan (acc.1.1) -> acc.1.2 = Num.zero ->
  let r := fold_left (cos_step a b) l acc in
  zero_or_nan (r.1.1) /\ r.1.2 = Num.zero.
Proof.
  revert acc. induction l as [|i l IH]; intros [[d na] nb] Ha Hd Hn; cbn in *.
  - auto.
  - apply IH; cbn.
    + intros j Hj. apply Ha. auto.
    + rewrite (Ha i) by auto. auto with numfacts.
    + rewrite (Ha i) by auto. subst na. reflexivity.
Qed.

Lemma cos_loop_nonneg a b l acc :
  Forall nonneg a -> Forall nonneg b ->
  nonneg (acc.1.1) -> nonneg (acc.1.2) -> nonneg (acc.2) ->
  let r := fold_left (cos_step a b) l acc in
  nonneg (r.1.1) /\ nonneg (r.1.2) /\ nonneg (r.2).
Proof.
  intros Ha Hb. revert acc.
  induction l as [|i l IH]; intros [[d na] nb] H1 H2 H3; cbn in *.
  - auto.
  - pose proof (get_nonneg a i Ha). pose proof (get_nonneg b i Hb).
    apply IH; cbn; auto with numfacts.
Qed.

(** Against an all-zero vector the quotient is 0/0. *)
Lemma cosineSimilarity_zero_r a n :
  cosineSimilarity a (repeat Num.zero n) = Num.NaN.
Proof.
  rewrite cosineSimilarity_eq.
  pose proof (cos_loop_zero_r a (repeat Num.zero n) (seq 0 (length a))
                (Num.zero, Num.zero, Num.zero) (get_repeat_zero n)) as H.
  cbn in H. specialize (H zero_is_zero_or_nan zero_is_zero_or_nan).
  destruct (fold_left _ _ _) as [[d na] nb]. cbn in H. destruct H as [Hd Hn].
  apply div_zero_zero; auto with numfacts.
Qed.

Lemma cosineSimilarity_zero_l b n :
  cosineSimilarity (repeat Num.zero n) b = Num.NaN.
Proof.
  rewrite cosineSimilarity_eq.
  pose proof (cos_loop_zero_l (repeat Num.zero n) b
                (seq 0 (length (repeat Num.zero n)))
                (Num.zero, Num.zero, Num.zero)) as H.
  cbn in H. destruct H as [Hd Hn]; auto with numfacts.
  { intros i Hi. apply in_seq in Hi. rewrite repeat_length in Hi.
    apply get_repeat_zero_in. lia. }
  destruct (fold_left _ _ _) as [[d na] nb]. cbn in Hd, Hn. subst na.
  apply div_zero_zero; auto with numfacts.
Qed.

Lemma cosineSimilarity_nonneg a b :
  Forall nonneg a -> Forall nonneg b -> nonneg (cosineSimilarity a b).
Proof.
  intros Ha Hb. rewrite cosineSimilarity_eq.
  pose proof (cos_loop_nonneg a b (seq 0 (length a))
                (Num.zero, Num.zero, Num.zero) Ha Hb) as H.
  cbn in H. specialize (H zero_nonneg zero_nonneg zero_nonneg).
  destruct (fold_left _ _ _) as [[d na] nb]. cbn in H.
  destruct H as (Hd & Hna & Hnb). auto with numfacts.
Qed.

End IndexFacts.

Module SearchFacts.

Import VectorStore NumSpec IndexSpec NumFacts IndexFacts.

(** ** The sort *)

Section SortFacts.
Context {A : Type} (cmp : A -> A -> number).

Lemma insert_Forall (P : A -> Prop) x l :
  P x -> Forall P l -> Forall P (insert cmp x l).
Proof.
  intros Hx. induction 1 as [|y l Hy Hl IH]; cbn.
  - repeat constructor; exact Hx.
  - destruct (goes_after cmp x y); repeat constructor; auto.
Qed.

Lemma sort_Forall (P : A -> Prop) l : Forall P l -> Forall P (sort cmp l).
Proof.
  induction 1 as [|y l Hy Hl IH]; cbn.
  - constructor.
  - apply insert_Forall; auto.
Qed.

Lemma insert_length x l : length (insert cmp x l) = S (length l).
Proof.
  induction l as [|y l IH]; cbn; [reflexivity|].
  destruct (goes_after cmp x y); cbn; congruence.
Qed.

Lemma sort_length l : length (sort cmp l) = length l.
Proof.
  induction l as [|y l IH]; cbn; [reflexivity|].
  rewrite insert_length. f_equal. exact IH.
Qed.

Lemma insert_Permutation x l : Permutation (insert cmp x l) (x :: l).
Proof.
  induction l as [|y l IH]; cbn; [reflexivity|].
  destruct (goes_after cmp x y); [|reflexivity].
  rewrite IH. apply perm_swap.
Qed.

Lemma sort_Permutation l : Permutation (sort cmp l) l.
Proof.
  induction l as [|y l IH]; cbn; [reflexivity|].
  rewrite insert_Permutation, IH. reflexivity.
Qed.

(** A list that is in order is left as it is: equal elements keep
    their places. *)
Lemma sort_in_order l : StronglySorted (in_order cmp) l -> sort cmp l = l.
Proof.
  induction 1 as [|x l Hl IH Hx]; [reflexivity|].
  change (sort cmp (x :: l)) with (insert cmp x (sort cmp l)).
  rewrite IH. destruct l as [|y l']; cbn; [reflexivity|].
  inversion Hx as [|? ? Hxy _]; subst. rewrite Hxy. reflexivity.
Qed.

(** When the comparison function is a consistent ordering, the result
    is in order. *)
Section Consistent.
Hypothesis total : forall x y, goes_after cmp x y = true -> in_order cmp y x.
Hypothesis trans :
  forall x y z, in_order cmp x y -> in_order cmp y z -> in_order cmp x z.

Lemma insert_in_order x l :
  StronglySorted (in_order cmp) l -> StronglySorted (in_order cmp) (insert cmp x l).
Proof.
  induction 1 as [|y l Hl IH Hy]; cbn.
  - repeat constructor.
  - destruct (goes_after cmp x y) eqn:E.
    + constructor; [exact IH|].
      eapply Permutation_Forall; [symmetry; apply insert_Permutation|].
      constructor; [apply total; exact E | exact Hy].
    + constructor; [constructor; assumption|].
      constructor; [exact E|].
      eapply Forall_impl; [exact Hy|]. intros z Hz. eapply trans; eauto.
Qed.

Lemma sort_in_order_result l : StronglySorted (in_order cmp) (sort cmp l).
Proof.
  induction l as [|x l IH]; cbn; [constructor|].
  apply insert_in_order, IH.
Qed.
End Consistent.
End SortFacts.

(** ** Search *)

(** At most [limit] results, whatever the store and the query. *)
Lemma searchSimilar_length store query limit :
  (length (searchSimilar store query limit) <= limit)%nat.
Proof. unfold searchSimilar. rewrite length_take. lia. Qed.

(** Nothing is found in an empty index, or after [clearRules]. *)
Lemma searchSimilar_empty_index query limit :
  searchSimilar VectorStore.empty query limit = [].
Proof. unfold searchSimilar. cbn. apply take_nil. Qed.

Lemma searchSimilar_after_clear store query limit :
  searchSimilar (clearRules store) query limit = [].
Proof. unfold searchSimilar. cbn. apply take_nil. Qed.

Lemma searchSimilar_nonneg store query limit :
  indexed store ->
  Forall (fun r => nonneg (similarity r)) (searchSimilar store query limit).
Proof.
  intros Hs. unfold searchSimilar.
  apply Forall_take, sort_Forall.
  unfold indexed in Hs. induction Hs as [|r rs Hr Hrs IH]; cbn.
  - constructor.
  - rewrite Hr. cbn. constructor; [|exact IH]. cbn.
    apply cosineSimilarity_nonneg; apply generateEmbedding_nonneg.
Qed.

(** ** Adding rules *)

Lemma addRules_rules store rs :
  rules (addRules store rs)
  = rules store
    ++ map (fun r => Rule.with_embedding r (generateEmbedding (Rule.content r))) rs.
Proof.
  unfold addRules. revert store.
  induction rs as [|r rs IH]; intros store; cbn [fold_left map].
  - rewrite app_nil_r. reflexivity.
  - rewrite IH. cbn. rewrite <- app_assoc. reflexivity.
Qed.

Lemma indexed_empty : indexed VectorStore.empty.
Proof. constructor. Qed.

Lemma indexed_addRules store rs : indexed store -> indexed (addRules store rs).
Proof.
  unfold indexed. intros Hs. rewrite addRules_rules.
  apply Forall_app. split; [exact Hs|].
  apply Forall_map. apply Forall_forall. intros r _. reflexivity.
Qed.

(** ** The properties *)

(** C1.  The fingerprint of a text without a word longer than two
    characters is the all-zero vector, and the similarity of any vector
    with it, on either side, is 0/0: NaN, not 0.  A search over a store
    that holds such a rule reports NaN as that rule's similarity. *)
Theorem zero_fingerprint_similarity_is_nan :
  generateEmbedding (Rule.content terse_rule) = repeat Num.zero dimension
  /\ (forall a,
        cosineSimilarity a (generateEmbedding (Rule.content terse_rule)) = Num.NaN
        /\ cosineSimilarity (generateEmbedding (Rule.content terse_rule)) a = Num.NaN)
  /\ map similarity (searchSimilar terse_store "urgent meeting" 5) = [Num.NaN].
Proof.
  assert (E : generateEmbedding (Rule.content terse_rule) = repeat Num.zero dimension).
  { apply generateEmbedding_no_words. vm_compute. reflexivity. }
  split; [exact E|]. split.
  - intros a. rewrite E. split.
    + apply cosineSimilarity_zero_r.
    + apply cosineSimilarity_zero_l.
  - vm_compute. reflexivity.
Qed.

(** C7, as the code has it.  [addRules] appends every rule it is given:
    the ids listed by [getAllRules] afterwards are the ids listed
    before, followed by the ids of the added rules in order, whether or
    not an id was already present. *)
Theorem addRules_appends store rs :
  map Rule.id (getAllRules (addRules store rs))
  = map Rule.id (getAllRules store) ++ map Rule.id rs.
Proof.
  unfold getAllRules. rewrite addRules_rules, map_app, map_map. reflexivity.
Qed.

(** C7 fails as stated: adding again a rule whose id is in the store
    leaves two entries with that id. *)
Lemma addRules_duplicates_id :
  count_id "g1" (getAllRules gym_store) = 1%nat
  /\ count_id "g1" (getAllRules (addRules gym_store [gym_rule])) <> 1%nat.
Proof. split; vm_compute; [reflexivity | discriminate]. Qed.

(** C8.  With a rule of all-zero fingerprint between two others, the
    comparison function yields NaN against it and the sort leaves the
    three results in insertion order: a similarity of about 0.29 comes
    before one of about 1.  In whatever order the three results are
    returned, their similarities are not non-increasing, NaN being one
    of them. *)
Theorem searchSimilar_unsorted_on_terse_rule :
  let found := searchSimilar mixed_store "urgent meeting" 3 in
  map (fun r => Rule.id (vsr_rule r)) found = ["r1"; "r2"; "r3"]
  /\ map similarity found
     = [S754_finite false 5200308914369309 (-54);
        Num.NaN;
        S754_finite false 4503599627370497 (-52)]
  /\ Num.lt (S754_finite false 5200308914369309 (-54))
            (S754_finite false 4503599627370497 (-52)) = true
  /\ forall l, Permutation l (map similarity found) -> ~ non_increasing l.
Proof.
  cbv zeta.
  assert (E : map similarity (searchSimilar mixed_store "urgent meeting" 3)
              = [S754_finite false 5200308914369309 (-54);
                 Num.NaN;
                 S754_finite false 4503599627370497 (-52)]).
  { vm_compute. reflexivity. }
  split; [vm_compute; reflexivity|]. split; [exact E|]. split; [reflexivity|].
  rewrite E. intros l Hl. apply nan_not_non_increasing.
  - eapply Permutation_in; [symmetry; exact Hl|]. right. left. reflexivity.
  - apply Permutation_length in Hl. rewrite Hl. cbn. lia.
Qed.

End SearchFacts.

(* ================================================================== *)
(** * The reminder scheduler *)
(* ================================================================== *)

Module ReminderFacts.

Import ReminderService ReminderSpec.

(** ** Reminder time *)

Lemma calculateReminderTime_eq now task priority :
  calculateReminderTime now task priority =
  let reminderTime :=
    newDate (inject_Z (dueDate_or_default now task)
             - reminderOffset now task priority) in
  if now <? reminderTime then reminderTime else now + 5 * 60 * 1000.
Proof. reflexivity. Qed.

Lemma calculateReminderTime_gt now task priority :
  now < calculateReminderTime now task priority.
Proof.
  rewrite calculateReminderTime_eq. cbv zeta.
  destruct (Z.ltb_spec now (newDate (inject_Z (dueDate_or_default now task)
                                     - reminderOffset now task priority))); lia.
Qed.

Lemma newDate_minus_inject_Z a b : newDate (inject_Z a - inject_Z b) = a - b.
Proof.
  unfold newDate, Qle_bool, Qfloor, Qceiling, Qminus, Qplus, Qopp, inject_Z. cbn.
  rewrite !Z.mul_1_r, !Z.div_1_r. destruct (0 <=? a + - b); lia.
Qed.

Lemma Qle_bool_minus_inject_Z a b c :
  Qle_bool (inject_Z a - inject_Z b) (inject_Z c) = (a - b <=? c).
Proof.
  unfold Qle_bool, Qminus, Qplus, Qopp, inject_Z. cbn.
  rewrite !Z.mul_1_r. f_equal.
Qed.

(** The offset is a whole number of milliseconds, or a quarter or a
    half of a time to due of four milliseconds at least. *)
Lemma reminderOffset_cases now task priority :
  let ttd := dueDate_or_default now task - now in
  (exists c, reminderOffset now task priority = inject_Z c)
  \/ (reminderOffset now task priority = (inject_Z ttd * (1 # 4))%Q /\ 4 <= ttd)
  \/ (reminderOffset now task priority = (inject_Z ttd * (1 # 2))%Q /\ 4 <= ttd).
Proof.
  unfold reminderOffset. cbv zeta. unfold Qmax.
  repeat match goal with
         | |- context [if ?b then _ else _] => destruct b eqn:?
         | |- context [match ?p with high => _ | medium => _ | low => _ end] =>
             destruct p
         end;
    try (left; eexists; reflexivity).
  all: try (right; left; split; [reflexivity|]).
  all: try (right; right; split; [reflexivity|]).
  all: match goal with
       | H : Qle_bool _ _ = false |- _ =>
           unfold Qle_bool, Qmult, inject_Z in H; cbn in H;
           apply Z.leb_gt in H; lia
       end.
Qed.

Ltac split_comparisons :=
  repeat match goal with |- context [?a <=? ?b] => destruct (Z.leb_spec a b) end;
  repeat match goal with |- context [?a <? ?b] => destruct (Z.ltb_spec a b) end.

(** C9.  Whatever the task, the stated priority and the instant, the
    reminder time is after [now]; it is [now] plus five minutes exactly
    when the due date less the offset is at or before [now], and the
    due date less the offset (as a date) otherwise. *)
Theorem calculateReminderTime_after_now now task priority :
  now < calculateReminderTime now task priority
  /\ calculateReminderTime now task priority
     = if Qle_bool (inject_Z (dueDate_or_default now task)
                    - reminderOffset now task priority) (inject_Z now)
       then now + 5 * 60 * 1000
       else newDate (inject_Z (dueDate_or_default now task)
                     - reminderOffset now task priority).
Proof.
  split; [apply calculateReminderTime_gt|].
  rewrite calculateReminderTime_eq. cbv zeta.
  pose proof (reminderOffset_cases now task priority) as Hcases. cbv zeta in Hcases.
  set (due := dueDate_or_default now task) in *.
  destruct Hcases as [[c ->] | [[-> Hge] | [-> Hge]]].
  - rewrite newDate_minus_inject_Z, Qle_bool_minus_inject_Z.
    destruct (Z.ltb_spec now (due - c)), (Z.leb_spec (due - c) now); lia.
  - unfold newDate, Qle_bool, Qfloor, Qceiling, Qminus, Qplus, Qopp, Qmult,
      inject_Z. cbn.
    split_comparisons; try lia.
    all: Z.div_mod_to_equations; lia.
  - unfold newDate, Qle_bool, Qfloor, Qceiling, Qminus, Qplus, Qopp, Qmult,
      inject_Z. cbn.
    split_comparisons; try lia.
    all: Z.div_mod_to_equations; lia.
Qed.

(** Two examples of the specification the code meets: an hour ahead at
    high priority the reminder is forty-five minutes from [now]; thirty
    hours ahead at low priority it is six hours from [now]. *)
Example due_in_one_hour_high :
  calculateReminderTime ten_o_clock (report_task high (ten_o_clock + ms_per_hour)) high
  = ten_o_clock + 45 * ms_per_minute.
Proof. vm_compute. reflexivity. Qed.

Example due_in_thirty_hours_low :
  calculateReminderTime ten_o_clock (report_task low (ten_o_clock + 30 * ms_per_hour)) low
  = ten_o_clock + 6 * ms_per_hour.
Proof. vm_compute. reflexivity. Qed.

(** C2, as the code has it.  A task due ten hours from [now] is due
    within a day, so the effective priority is [high] whatever the
    stated one, [low] included; ten hours being more than eight, the
    offset is two hours and the reminder time is [now] plus eight
    hours. *)
Theorem due_in_ten_hours now task priority :
  Task.dueDate task = Some (now + 10 * ms_per_hour) ->
  calculateReminderTime now task priority = now + 8 * ms_per_hour.
Proof.
  intros Hdue. unfold calculateReminderTime. rewrite Hdue.
  cbv [default from_option id].
  replace (now + 10 * ms_per_hour - now) with 36000000
    by (unfold ms_per_hour; lia).
  repeat match goal with
         | |- context [36000000 <=? ?c] =>
             let b := eval vm_compute in (36000000 <=? c) in
             change (36000000 <=? c) with b
         end.
  cbv iota. rewrite newDate_minus_inject_Z. unfold ms_per_hour.
  destruct (Z.ltb_spec now (now + 10 * (60 * 60 * 1000) - 2 * 60 * 60 * 1000)); lia.
Qed.

Lemma due_in_ten_hours_witness :
  calculateReminderTime ten_o_clock
                        (report_task low (ten_o_clock + 10 * ms_per_hour)) low
  = ten_o_clock + 8 * ms_per_hour.
Proof. apply due_in_ten_hours. reflexivity. Defined.

(** C2 fails as stated: the reminder is not five hours from [now]. *)
Lemma due_in_ten_hours_not_five_hours_later :
  calculateReminderTime ten_o_clock
                        (report_task low (ten_o_clock + 10 * ms_per_hour)) low
  <> ten_o_clock + 5 * ms_per_hour.
Proof. vm_compute. discriminate. Qed.

End ReminderFacts.

Module SchedulerFacts.

Import ReminderService ReminderSpec.

(** ** Messages *)

(** C3.  The message of a reminder is the preparation phrasing for
    every reminder type: the first operand of the fallback chain is
    never empty, so the type is not consulted, and the preparation
    phrasing is neither the deadline nor the follow-up phrasing. *)
Theorem reminder_message_is_preparation_phrasing task type :
  generateReminderMessage task type = typeMessages task preparation
  /\ typeMessages task preparation <> typeMessages task deadline
  /\ typeMessages task preparation <> typeMessages task followup.
Proof.
  unfold generateReminderMessage, typeMessages.
  destruct (Task.priority task); cbn; repeat split; discriminate.
Qed.

(** The same on a run: a high-priority task, a deadline reminder armed
    and fired by its timer; the console shows the preparation text. *)
Example deadline_reminder_on_console :
  Host.console (fire armed.1 armed.2 0%N).2
  = ["🔔 REMINDER: 🚨 Time to prepare for: Submit report"].
Proof. vm_compute. reflexivity. Qed.

(** ** Firing *)

Lemma insert_by_time_In x y l : In y (insert_by_time x l) -> y = x \/ In y l.
Proof.
  induction l as [|z l IH]; cbn.
  - intros [<- | []]. left; reflexivity.
  - destruct (0 <? _); cbn.
    + intros [<- | H]; [right; left; reflexivity|].
      destruct (IH H); auto.
    + intros [<- | [<- | H]]; auto.
Qed.

Lemma sorted_by_time_In y l : In y (fold_right insert_by_time [] l) -> In y l.
Proof.
  induction l as [|x l IH]; cbn; [tauto|].
  intros H. apply insert_by_time_In in H. destruct H; auto.
Qed.

Lemma set_sent_sent rid l r :
  In r (set_sent rid l) -> Reminder.id r = rid -> Reminder.sent r = true.
Proof.
  unfold set_sent. rewrite in_map_iff. intros (r0 & <- & _).
  destruct (decide (Reminder.id r0 = rid)); cbn; [reflexivity | tauto].
Qed.

(** C4, as the code has it.  Firing a reminder of the service marks it
    sent and drops its timer; the reminder stays in [getAllReminders]
    (the ids listed are unchanged) and no longer shows among the
    upcoming reminders, whatever the instant and the window. *)
Theorem sendReminder_marks_sent svc h reminder :
  In reminder (reminders svc) ->
  let svc' := (sendReminder svc h reminder).1 in
  In (Reminder.mark_sent reminder) (getAllReminders svc')
  /\ map Reminder.id (getAllReminders svc') = map Reminder.id (getAllReminders svc)
  /\ activeTimers svc' !! Reminder.id reminder = None
  /\ forall now hours r',
       In r' (getUpcomingReminders now svc' hours) ->
       Reminder.id r' <> Reminder.id reminder.
Proof.
  intros Hin. cbn. repeat split.
  - unfold getAllReminders, set_sent. cbn. apply in_map_iff. exists reminder.
    split; [|exact Hin]. destruct (decide _); [reflexivity | congruence].
  - unfold getAllReminders, set_sent. cbn. rewrite map_map. apply map_ext.
    intros r. destruct (decide _); reflexivity.
  - apply lookup_delete_eq.
  - intros now hours r' Hr' Hid. unfold getUpcomingReminders in Hr'. cbn in Hr'.
    apply sorted_by_time_In, filter_In in Hr'. destruct Hr' as [Hr' Hf].
    apply set_sent_sent in Hr'; [|exact Hid]. rewrite Hr' in Hf. discriminate.
Qed.

Lemma sendReminder_marks_sent_witness :
  In report_reminder (reminders armed.1)
  /\ In (Reminder.mark_sent report_reminder)
        (getAllReminders (sendReminder armed.1 armed.2 report_reminder).1).
Proof.
  assert (Hin : In report_reminder (reminders armed.1)).
  { vm_compute. left. reflexivity. }
  split; [exact Hin|].
  apply (sendReminder_marks_sent armed.1 armed.2 report_reminder Hin).
Defined.

(** C4 fails as stated: the reminder that was sent is still listed. *)
Lemma fired_reminder_still_listed :
  In report_reminder (reminders armed.1)
  /\ ~ (forall r',
          In r' (getAllReminders (sendReminder armed.1 armed.2 report_reminder).1) ->
          Reminder.id r' <> Reminder.id report_reminder).
Proof.
  split.
  - vm_compute. left. reflexivity.
  - intros H. apply (H (Reminder.mark_sent report_reminder)).
    + vm_compute. left. reflexivity.
    + reflexivity.
Qed.

End SchedulerFacts.

(* ================================================================== *)
(** * The intent engine *)
(* ================================================================== *)

Module ResponseFacts.

Import RAGAgent NumSpec IndexSpec AgentSpec NumFacts.

(** ** [processUserInput] returns *)

Lemma existsb_filter_nonempty {A} (f : A -> bool) (l : list A) :
  existsb f l = true -> List.filter f l <> [].
Proof.
  induction l as [|x l IH]; cbn; [discriminate|].
  destruct (f x); cbn; [discriminate | exact IH].
Qed.

(** Neither [reduce] nor [rules[0]] meets an empty array. *)
Lemma generateResponse_total input rules :
  rules <> [] -> exists text, generateResponse input rules = Some text.
Proof.
  intros Hne. unfold generateResponse.
  destruct (containsTimeConflict input rules); [eauto|].
  destruct (containsPriorityConflict input rules) eqn:Hp.
  - unfold containsPriorityConflict in Hp. apply andb_true_iff in Hp as [_ Hp].
    apply existsb_filter_nonempty in Hp. unfold handlePriorityConflict.
    destruct (List.filter _ rules) as [|r rs]; [congruence|]. cbn. eauto.
  - unfold generateBasicResponse. destruct rules as [|r rs]; [congruence|].
    cbn. eauto.
Qed.

Lemma processUserInput_spec agent input :
  exists text,
    processUserInput agent input
    = Some {| response := text;
              relevantRules := map vsr_rule (retrieved agent input);
              confidence := calculateConfidence (retrieved agent input) |}.
Proof.
  unfold processUserInput. fold (retrieved agent input).
  destruct (retrieved agent input) as [|r rs] eqn:E; cbn [length Nat.eqb].
  - eexists. reflexivity.
  - destruct (generateResponse_total input (map vsr_rule (r :: rs))) as [text Ht];
      [discriminate|].
    rewrite Ht. cbn. eauto.
Qed.

(** ** Confidence *)

Lemma sum_nonneg results acc :
  nonneg acc -> Forall (fun r => nonneg (similarity r)) results ->
  nonneg (fold_left (fun sum r => (sum + similarity r)%num) results acc).
Proof.
  revert acc. induction results as [|r rs IH]; intros acc Ha Hr; cbn; [exact Ha|].
  inversion Hr; subst. apply IH; auto with numfacts.
Qed.

Lemma calculateConfidence_range results :
  Forall (fun r => nonneg (similarity r)) results ->
  nan_or_percentage (calculateConfidence results).
Proof.
  intros Hr. unfold calculateConfidence.
  destruct (Nat.eqb (length results) 0).
  - right. split; reflexivity.
  - apply min_hundred_range.
    apply mul_nonneg; [|apply hundred_nonneg].
    apply div_nonneg; [apply sum_nonneg; auto with numfacts|].
    apply of_Z_nonneg. lia.
Qed.

(** C5, as the code has it.  On an index built by [addRules],
    [processUserInput] returns; its confidence is 0 when no rule is
    retrieved and [Math.min] of a hundred times the mean similarity and
    100 otherwise; whenever that is a number it lies between 0 and 100. *)
Theorem processUserInput_confidence agent input :
  indexed (vectorStore agent) ->
  exists r,
    processUserInput agent input = Some r
    /\ relevantRules r = map vsr_rule (retrieved agent input)
    /\ confidence r
       = match retrieved agent input with
         | [] => Num.zero
         | _ :: _ =>
             Num.min (meanSimilarity (retrieved agent input) * Num.hundred)%num
                     Num.hundred
         end
    /\ nan_or_percentage (confidence r).
Proof.
  intros Hidx. destruct (processUserInput_spec agent input) as [text Ht].
  eexists. split; [exact Ht|]. cbn. split; [reflexivity|]. split.
  - unfold calculateConfidence. destruct (retrieved agent input); reflexivity.
  - apply calculateConfidence_range.
    apply SearchFacts.searchSimilar_nonneg, Hidx.
Qed.

Lemma processUserInput_confidence_witness :
  indexed (vectorStore gym_agent)
  /\ exists r,
       processUserInput gym_agent "urgent meeting" = Some r
       /\ relevantRules r = map vsr_rule (retrieved gym_agent "urgent meeting")
       /\ confidence r
          = match retrieved gym_agent "urgent meeting" with
            | [] => Num.zero
            | _ :: _ =>
                Num.min (meanSimilarity (retrieved gym_agent "urgent meeting")
                         * Num.hundred)%num
                        Num.hundred
            end
       /\ nan_or_percentage (confidence r).
Proof.
  assert (Hidx : indexed (vectorStore gym_agent)).
  { apply SearchFacts.indexed_addRules, SearchFacts.indexed_empty. }
  split; [exact Hidx|].
  apply (processUserInput_confidence gym_agent "urgent meeting" Hidx).
Defined.

(** C5 fails as stated: one rule is retrieved, its similarity to the
    input is 0, and so is the confidence. *)
Lemma zero_confidence_with_rules :
  (length ∘ relevantRules <$> processUserInput gym_agent "urgent meeting")
  = Some 1%nat
  /\ (confidence <$> processUserInput gym_agent "urgent meeting") = Some Num.zero.
Proof. split; vm_compute; reflexivity. Qed.

End ResponseFacts.

Module TaskFacts.

Import RAGAgent AgentSpec ReminderSpec.

Section Clock.
Variables (now : Date) (tz : Z).

(** ** Action items *)

Lemma extractActionItems_dueDate response input :
  Forall (fun item => is_Some (Item.dueDate item))
         (extractActionItems now tz response input).
Proof.
  unfold extractActionItems. cbv zeta.
  destruct (Regex.test re_reschedule response), (Regex.test re_cancel response),
    (Regex.test re_check response), (Regex.test re_urgent input),
    (isUrgentTimeframe input || Regex.test re_within_day input);
    cbn [app map length Nat.eqb Item.dueDate Item.priority Item.content];
    repeat constructor; cbn; eauto.
Qed.

Lemma extractActionItems_urgent response input :
  Regex.test re_urgent input = true ->
  (names_action response = true
   /\ Forall (fun item => Item.priority item = high
                          /\ Item.dueDate item = Some (now + 30 * 60 * 1000))
             (extractActionItems now tz response input))
  \/ (names_action response = false
      /\ extractActionItems now tz response input = [defaultItem now tz input]).
Proof.
  intros Hu. unfold extractActionItems, names_action. cbv zeta. rewrite Hu.
  destruct (Regex.test re_reschedule response), (Regex.test re_cancel response),
    (Regex.test re_check response),
    (isUrgentTimeframe input || Regex.test re_within_day input);
    cbn [app map length Nat.eqb Item.dueDate Item.priority Item.content orb];
    first [ left; split; [reflexivity|]; repeat constructor
          | right; split; reflexivity ].
Qed.

(** ** The two loops of [generateTaskRecommendations] *)

Lemma push_task_fold appliedRules items acc h :
  fold_left (push_task now appliedRules) items (acc, h)
  = (acc ++ tasks_from now appliedRules (Host.next_uuid h) items,
     advance h (length items)).
Proof.
  revert acc h. induction items as [|item rest IH]; intros acc h; cbn.
  - rewrite app_nil_r. unfold advance. destruct h; cbn.
    rewrite N.add_0_r. reflexivity.
  - rewrite IH. cbn. rewrite <- app_assoc. cbn. f_equal.
    unfold advance. cbn. f_equal. lia.
Qed.

(** Every reminder time is ahead of [now], so each reminder is armed
    and none is sent on the spot; the timers armed before are kept. *)
Lemma schedule_task_fold tasks done svc h :
  Forall (fun t => is_Some (Task.dueDate t)) tasks ->
  exists timers,
    fold_left (schedule_task now) tasks (done, svc, h)
    = (done ++ map (with_reminder now) tasks,
       ReminderService.mk
         (ReminderService.reminders svc
          ++ reminders_for now (Host.next_uuid h) tasks)
         timers,
       advance h (length tasks))
    /\ (forall k, (k < Host.next_uuid h)%N ->
                  timers !! k = ReminderService.activeTimers svc !! k)
    /\ Forall (armed_in timers) (reminders_for now (Host.next_uuid h) tasks).
Proof.
  intros Hd. revert done svc h.
  induction Hd as [|task rest [d Hdue] Hrest IH]; intros done svc h;
    cbn [fold_left].
  - exists (ReminderService.activeTimers svc). cbn. rewrite !app_nil_r.
    split; [|split; [reflexivity | constructor]].
    unfold advance. destruct svc, h; cbn. rewrite N.add_0_r. reflexivity.
  - unfold schedule_task at 2. rewrite Hdue.
    unfold ReminderService.scheduleReminder. cbn [Host.randomUUID].
    unfold ReminderService.scheduleNotification.
    cbn [Reminder.scheduledTime Reminder.id].
    pose proof (ReminderFacts.calculateReminderTime_gt now task (Task.priority task))
      as Hlt.
    destruct (Z.ltb_spec 0 (ReminderService.calculateReminderTime
                              now task (Task.priority task) - now)); [|lia].
    cbn [ReminderService.reminders ReminderService.activeTimers].
    edestruct IH as (timers & Ht & Hkept & Harmed). rewrite Ht. exists timers.
    cbn [ReminderService.reminders ReminderService.activeTimers Host.next_uuid
         length Task.id Task.priority Task.with_reminderTime] in *.
    split; [|split].
    + rewrite <- !app_assoc. cbn [app]. f_equal.
      unfold advance. cbn. f_equal. lia.
    + intros k Hk. rewrite Hkept by lia. apply lookup_insert_ne. lia.
    + cbn [reminders_for]. constructor; [|exact Harmed].
      unfold armed_in. cbn [Reminder.id Reminder.scheduledTime Reminder.sent].
      split; [|reflexivity]. rewrite Hkept by lia. apply lookup_insert_eq.
Qed.

Lemma tasks_from_dueDate appliedRules n items :
  Forall (fun item => is_Some (Item.dueDate item)) items ->
  Forall (fun t => is_Some (Task.dueDate t)) (tasks_from now appliedRules n items).
Proof.
  intros Hd. revert n.
  induction Hd as [|it its Hi His IH]; intros n; cbn; constructor; auto.
Qed.

Lemma tasks_from_ids appliedRules n items x :
  In x (map Task.id (tasks_from now appliedRules n items)) -> (n <= x)%N.
Proof.
  revert n. induction items as [|item rest IH]; intros n; cbn; [tauto|].
  intros [<- | H]; [lia|]. apply IH in H. lia.
Qed.

Lemma tasks_from_NoDup appliedRules n items :
  List.NoDup (map Task.id (tasks_from now appliedRules n items)).
Proof.
  revert n. induction items as [|item rest IH]; intros n; cbn; constructor.
  - intros H. apply tasks_from_ids in H. lia.
  - apply IH.
Qed.

Lemma tasks_from_drafted appliedRules n items :
  map drafted (tasks_from now appliedRules n items)
  = map (fun i => (Item.content i, Item.priority i, Item.dueDate i)) items.
Proof.
  revert n. induction items as [|item rest IH]; intros n; cbn; [reflexivity|].
  f_equal. apply IH.
Qed.

Lemma reminders_for_taskId n tasks :
  map Reminder.taskId (reminders_for now n tasks) = map Task.id tasks.
Proof.
  revert n. induction tasks as [|t rest IH]; intros n; cbn; [reflexivity|].
  f_equal. apply IH.
Qed.

(** The shape of every run of [generateTaskRecommendations]. *)
Lemma generateTaskRecommendations_spec agent h input :
  exists r timers,
    processUserInput agent input = Some r
    /\ let items := extractActionItems now tz (response r) input in
       let tasks := tasks_from now (map Rule.id (relevantRules r))
                               (Host.next_uuid h) items in
       let scheduled :=
         reminders_for now (Host.next_uuid h + N.of_nat (length items))%N tasks in
       generateTaskRecommendations now tz agent h input
       = Some (map (with_reminder now) tasks,
               RAGAgent.mk (vectorStore agent)
                 (ReminderService.mk
                    (ReminderService.reminders (reminderService agent) ++ scheduled)
                    timers),
               advance (advance h (length items)) (length tasks))
       /\ Forall (armed_in timers) scheduled.
Proof.
  destruct (ResponseFacts.processUserInput_spec agent input) as [text Ht].
  unfold generateTaskRecommendations. rewrite Ht.
  cbn [mbind option_bind response relevantRules].
  rewrite push_task_fold. cbn [app].
  set (items := extractActionItems now tz text input).
  set (tasks := tasks_from now _ (Host.next_uuid h) items).
  destruct (schedule_task_fold tasks [] (reminderService agent)
              (advance h (length items))) as (timers & Hs & _ & Harmed).
  { apply tasks_from_dueDate, extractActionItems_dueDate. }
  rewrite Hs. cbn [app]. eexists _, timers. split; [reflexivity|].
  split; [reflexivity | exact Harmed].
Qed.

End Clock.

End TaskFacts.

Module RecommendationFacts.

Import RAGAgent AgentSpec ReminderSpec TaskFacts.

Lemma reminders_of_count tid l :
  length (reminders_of tid l) = count_occ N.eq_dec (map Reminder.taskId l) tid.
Proof.
  unfold reminders_of. induction l as [|r l IH]; cbn; [reflexivity|].
  destruct (N.eq_dec (Reminder.taskId r) tid) as [E|E].
  - rewrite bool_decide_eq_true_2 by exact E. cbn. f_equal. exact IH.
  - rewrite bool_decide_eq_false_2 by exact E. exact IH.
Qed.

Lemma with_reminder_ids now tasks :
  map Task.id (map (with_reminder now) tasks) = map Task.id tasks.
Proof. rewrite map_map. reflexivity. Qed.

Lemma with_reminder_drafted now tasks :
  map drafted (map (with_reminder now) tasks) = map drafted tasks.
Proof. rewrite map_map. reflexivity. Qed.

Lemma tasks_from_Forall now appliedRules n items (p : Priority) (d : option Date) :
  Forall (fun item => Item.priority item = p /\ Item.dueDate item = d) items ->
  Forall (fun t => Task.priority t = p /\ Task.dueDate t = d)
         (map (with_reminder now) (tasks_from now appliedRules n items)).
Proof.
  intros Hall. revert n.
  induction Hall as [|it its Hi His IH]; intros n; cbn; constructor; auto.
Qed.

(** C10.  [generateTaskRecommendations] returns; every task it returns
    has a due date and, as its reminder time, the time computed by
    [calculateReminderTime]; the reminders of the service are those it
    had, followed by the reminders scheduled by the call, one per
    returned task and in the same order, each of them unsent with its
    timer pending; exactly one of them belongs to each returned task. *)
Theorem every_task_has_one_reminder now tz agent h input :
  exists tasks agent' h' scheduled,
    generateTaskRecommendations now tz agent h input = Some (tasks, agent', h')
    /\ Forall (fun t =>
                 is_Some (Task.dueDate t)
                 /\ Task.reminderTime t
                    = Some (ReminderService.calculateReminderTime
                              now t (Task.priority t)))
              tasks
    /\ ReminderService.reminders (reminderService agent')
       = ReminderService.reminders (reminderService agent) ++ scheduled
    /\ map Reminder.taskId scheduled = map Task.id tasks
    /\ Forall (armed_in (ReminderService.activeTimers (reminderService agent')))
              scheduled
    /\ Forall (fun t => length (reminders_of (Task.id t) scheduled) = 1%nat) tasks.
Proof.
  destruct (generateTaskRecommendations_spec now tz agent h input)
    as (r & timers & Hr & Hg & Harmed).
  cbv zeta in Hg, Harmed.
  set (items := extractActionItems now tz (response r) input) in *.
  set (tasks := tasks_from now (map Rule.id (relevantRules r))
                           (Host.next_uuid h) items) in *.
  set (scheduled := reminders_for now (Host.next_uuid h + N.of_nat (length items))%N
                                  tasks) in *.
  exists (map (with_reminder now) tasks). eexists _, _. exists scheduled.
  split; [exact Hg|].
  assert (Hids : map Reminder.taskId scheduled
                 = map Task.id (map (with_reminder now) tasks)).
  { subst scheduled. rewrite reminders_for_taskId, with_reminder_ids. reflexivity. }
  split; [|split; [reflexivity|split; [exact Hids|split; [exact Harmed|]]]].
  - apply Forall_map.
    pose proof (tasks_from_dueDate now (map Rule.id (relevantRules r))
                  (Host.next_uuid h) items
                  (extractActionItems_dueDate now tz (response r) input)) as Hd.
    fold tasks in Hd. eapply Forall_impl; [exact Hd|].
    intros t Ht. split; [exact Ht | reflexivity].
  - apply Forall_forall. intros t Ht. apply list_elem_of_In in Ht.
    rewrite reminders_of_count, Hids.
    apply NoDup_count_occ'.
    + rewrite with_reminder_ids. apply tasks_from_NoDup.
    + apply in_map. exact Ht.
Qed.

(** C6, as the code has it.  When the input holds a word of the urgent
    vocabulary, [generateTaskRecommendations] returns, and either the
    response names an action verb and every task has priority [high]
    and is due thirty minutes from [now], or it names none and the one
    task is the default one: its content is the input after "Handle: ",
    and its due date is the date extracted from the input, or a day
    from [now] when there is none. *)
Theorem urgent_input_tasks now tz agent h input :
  Regex.test re_urgent input = true ->
  exists r tasks agent' h',
    processUserInput agent input = Some r
    /\ generateTaskRecommendations now tz agent h input = Some (tasks, agent', h')
    /\ ((names_action (response r) = true
         /\ Forall (fun t => Task.priority t = high
                             /\ Task.dueDate t = Some (now + 30 * 60 * 1000))
                   tasks)
        \/ (names_action (response r) = false
            /\ map drafted tasks
               = [("Handle: " +:+ input,
                   calculateDefaultPriority now input (extractDueDate now tz input),
                   Some (default (now + 24 * 60 * 60 * 1000)
                                 (extractDueDate now tz input)))])).
Proof.
  intros Hu.
  destruct (generateTaskRecommendations_spec now tz agent h input)
    as (r & timers & Hr & Hg & _).
  cbv zeta in Hg. exists r. eexists _, _, _.
  split; [exact Hr|]. split; [exact Hg|].
  destruct (extractActionItems_urgent now tz (response r) input Hu)
    as [[Hn Hall] | [Hn Heq]]; [left | right]; (split; [exact Hn|]).
  - apply tasks_from_Forall. exact Hall.
  - rewrite with_reminder_drafted, tasks_from_drafted, Heq. reflexivity.
Qed.

Lemma urgent_input_tasks_witness :
  Regex.test re_urgent urgent_input = true
  /\ exists r tasks agent' h',
       processUserInput gym_agent urgent_input = Some r
       /\ generateTaskRecommendations ten_o_clock 0 gym_agent (Host.init false)
                                      urgent_input
          = Some (tasks, agent', h')
       /\ ((names_action (response r) = true
            /\ Forall (fun t => Task.priority t = high
                                /\ Task.dueDate t = Some (ten_o_clock + 30 * 60 * 1000))
                      tasks)
           \/ (names_action (response r) = false
               /\ map drafted tasks
                  = [("Handle: " +:+ urgent_input,
                      calculateDefaultPriority ten_o_clock urgent_input
                        (extractDueDate ten_o_clock 0 urgent_input),
                      Some (default (ten_o_clock + 24 * 60 * 60 * 1000)
                                    (extractDueDate ten_o_clock 0 urgent_input)))])).
Proof.
  assert (Hu : Regex.test re_urgent urgent_input = true) by reflexivity.
  split; [exact Hu|].
  apply (urgent_input_tasks ten_o_clock 0 gym_agent (Host.init false) urgent_input Hu).
Defined.

(** C6 fails as stated: at ten in the morning, with a corpus of one
    rule about the gym, the input "urgent deadline for project due
    today" gives one task, the default one, of priority [high] and due
    at six in the evening, eight hours from [now], not thirty minutes. *)
Lemma urgent_default_task_due_at_six :
  (map drafted ∘ fst ∘ fst
     <$> generateTaskRecommendations ten_o_clock 0 gym_agent (Host.init false)
                                     urgent_input)
  = Some [("Handle: urgent deadline for project due today", high,
           Some (ten_o_clock + 8 * ms_per_hour))]
  /\ ten_o_clock + 8 * ms_per_hour <> ten_o_clock + 30 * 60 * 1000.
Proof. split; vm_compute; [reflexivity | discriminate]. Qed.

End RecommendationFacts.

(* ================================================================== *)
(** * Fingerprints and the index *)
(* ================================================================== *)

Module FingerprintFacts.
Import VectorStore NumSpec IndexSpec StoreSpec NumFacts IndexFacts.

Lemma ToInt32_range x : - 2 ^ 31 <= ToInt32 x < 2 ^ 31.
Proof.
  unfold ToInt32. pose proof (Z.mod_pos_bound x (2 ^ 32) ltac:(lia)).
  destruct (Z.leb_spec (2 ^ 31) (x mod 2 ^ 32)); lia.
Qed.

Lemma simpleHash_loop_range codes hash :
  - 2 ^ 31 <= hash < 2 ^ 31 -> - 2 ^ 31 <= simpleHash_loop codes hash < 2 ^ 31.
Proof.
  revert hash. induction codes as [|c codes IH]; intros hash Hh; cbn [simpleHash_loop].
  - exact Hh.
  - apply IH, ToInt32_range.
Qed.

(** X1.  [simpleHash] is never negative and never above 2^31, so the
    bucket [simpleHash(word) % 100] that [generateEmbedding] writes to
    is an index of the fingerprint, for every word. *)
Theorem simpleHash_bucket_in_range str :
  0 <= simpleHash str <= 2 ^ 31
  /\ 0 <= Z.rem (simpleHash str) 100 < 100
  /\ (Z.to_nat (Z.rem (simpleHash str) 100) < dimension)%nat.
Proof.
  unfold simpleHash.
  pose proof (simpleHash_loop_range (Str.charCodes str) 0 ltac:(lia)) as H.
  assert (H0 : 0 <= Z.abs (simpleHash_loop (Str.charCodes str) 0) <= 2 ^ 31) by lia.
  split; [exact H0|].
  pose proof (Z.rem_bound_pos (Z.abs (simpleHash_loop (Str.charCodes str) 0)) 100
                ltac:(lia) ltac:(lia)) as Hr.
  split; [exact Hr|]. unfold dimension. lia.
Qed.

Lemma bump_length (v : number) (words : list string) (e : list number) :
  length (fold_left
            (fun (embedding : list number) word =>
               alter (fun x => (x + v)%num)
                     (Z.to_nat (Z.rem (simpleHash word) 100)) embedding)
            words e) = length e.
Proof.
  revert e. induction words as [|w ws IH]; intros e; cbn; [reflexivity|].
  rewrite IH. apply length_alter.
Qed.

(** X2.  Every fingerprint has [dimension] entries, whatever the
    text. *)
Theorem generateEmbedding_length text :
  length (generateEmbedding text) = dimension.
Proof.
  unfold generateEmbedding. rewrite length_map, bump_length. apply repeat_length.
Qed.

Lemma alter_swap {A} (f : A -> A) i j (l : list A) :
  alter f i (alter f j l) = alter f j (alter f i l).
Proof.
  destruct (decide (i = j)) as [->|Hij]; [reflexivity|].
  apply list_eq. intros k. rewrite !list_lookup_alter.
  repeat case_decide; subst; congruence.
Qed.

Lemma bump_Permutation (v : number) (ws ws' : list string) :
  Permutation ws ws' ->
  forall e,
    fold_left (fun (embedding : list number) word =>
                 alter (fun x => (x + v)%num)
                       (Z.to_nat (Z.rem (simpleHash word) 100)) embedding) ws e
    = fold_left (fun (embedding : list number) word =>
                   alter (fun x => (x + v)%num)
                         (Z.to_nat (Z.rem (simpleHash word) 100)) embedding) ws' e.
Proof.
  induction 1 as [|w ws ws' _ IH|w1 w2 ws|ws1 ws2 ws3 _ IH1 _ IH2]; intros e; cbn.
  - reflexivity.
  - apply IH.
  - rewrite alter_swap. reflexivity.
  - rewrite IH1. apply IH2.
Qed.

(** X3.  The fingerprint depends on the words of the text as a
    bag only: two texts whose lower-cased words longer than two
    characters are the same up to order have the same fingerprint. *)
Theorem generateEmbedding_bag_of_words text text' :
  Permutation (words_of text) (words_of text') ->
  generateEmbedding text = generateEmbedding text'.
Proof.
  intros Hp. unfold generateEmbedding.
  rewrite (Permutation_length Hp).
  rewrite (bump_Permutation _ _ _ Hp). reflexivity.
Qed.

Lemma generateEmbedding_bag_of_words_witness :
  Permutation (words_of "urgent meeting") (words_of "Meeting - URGENT!")
  /\ generateEmbedding "urgent meeting" = generateEmbedding "Meeting - URGENT!".
Proof.
  assert (Hp : Permutation (words_of "urgent meeting") (words_of "Meeting - URGENT!")).
  { vm_compute. apply perm_swap. }
  split; [exact Hp|]. apply (generateEmbedding_bag_of_words _ _ Hp).
Defined.

Lemma mul_comm x y : (x * y)%num = (y * x)%num.
Proof.
  destruct x as [sx|sx| |sx mx ex], y as [sy|sy| |sy my ey]; cbn;
    rewrite ?(xorb_comm sy sx), ?(Pos.mul_comm my mx), ?(Z.add_comm ey ex);
    reflexivity.
Qed.

Lemma cos_loop_swap a b l d na nb :
  fold_left (cos_step b a) l (d, nb, na)
  = let '(d', na', nb') := fold_left (cos_step a b) l (d, na, nb) in (d', nb', na').
Proof.
  revert d na nb. induction l as [|i l IH]; intros d na nb; cbn [fold_left].
  - reflexivity.
  - cbn [cos_step]. rewrite (mul_comm (get b i) (get a i)). apply IH.
Qed.

(** X4.  On vectors of the same length [cosineSimilarity] is
    symmetric, bit for bit (NaN included). *)
Theorem cosineSimilarity_symmetric a b :
  length a = length b -> cosineSimilarity a b = cosineSimilarity b a.
Proof.
  intros Hlen. rewrite !cosineSimilarity_eq. rewrite <- Hlen.
  rewrite (cos_loop_swap a b).
  destruct (fold_left (cos_step a b) _ _) as [[d na] nb].
  rewrite (mul_comm (Num.sqrt nb)). reflexivity.
Qed.

Lemma cosineSimilarity_symmetric_witness :
  length (generateEmbedding "urgent meeting") = length (generateEmbedding "gym workout")
  /\ cosineSimilarity (generateEmbedding "urgent meeting") (generateEmbedding "gym workout")
     = cosineSimilarity (generateEmbedding "gym workout") (generateEmbedding "urgent meeting").
Proof.
  assert (H : length (generateEmbedding "urgent meeting")
              = length (generateEmbedding "gym workout")).
  { vm_compute. reflexivity. }
  split; [exact H|]. apply (cosineSimilarity_symmetric _ _ H).
Defined.

Lemma addRules_snoc store rs r :
  addRules store (rs ++ [r]) = addRule (addRules store rs) r.
Proof. unfold addRules. rewrite fold_left_app. reflexivity. Qed.

(** X5.  After [addRules] the map of embeddings holds, under an id
    that occurs among the added rules, the fingerprint of the content of
    the last added rule with that id; under any other id it holds what
    it held before. *)
Theorem addRules_embeddings store rs i :
  embeddings (addRules store rs) !! i
  = match latest i rs with
    | Some r => Some (generateEmbedding (Rule.content r))
    | None => embeddings store !! i
    end.
Proof.
  unfold latest. induction rs as [|r rs IH] using rev_ind.
  - reflexivity.
  - rewrite addRules_snoc, rev_app_distr. cbn.
    destruct (String.eqb_spec (Rule.id r) i) as [->|Hne].
    + apply lookup_insert_eq.
    + rewrite lookup_insert_ne by exact Hne. exact IH.
Qed.
End FingerprintFacts.

(* ================================================================== *)
(** * What a search returns *)
(* ================================================================== *)

Module ResultFacts.
Import VectorStore NumSpec IndexSpec StoreSpec NumFacts IndexFacts SearchFacts.

Lemma omap_indexed query rs :
  Forall (fun r => Rule.embedding r = Some (generateEmbedding (Rule.content r))) rs ->
  omap (fun rule =>
          match Rule.embedding rule with
          | Some e => Some {| vsr_rule := rule;
                              similarity := cosineSimilarity (generateEmbedding query) e |}
          | None => None
          end) rs
  = map (scored query) rs.
Proof.
  induction 1 as [|r rs Hr _ IH]; cbn; [reflexivity|].
  rewrite Hr, IH. reflexivity.
Qed.

Lemma searchSimilar_indexed store query limit :
  indexed store ->
  searchSimilar store query limit
  = take limit (sort (fun a b => (similarity b - similarity a)%num)
                     (map (scored query) (rules store))).
Proof. intros Hs. unfold searchSimilar. rewrite (omap_indexed query _ Hs). reflexivity. Qed.

(** X6.  On a store built by [addRules], a search returns
    min(limit, number of rules) results; the rules of the results are
    distinct entries of the store; and each result carries the cosine
    similarity of the fingerprints of the query and of its rule's
    content. *)
Theorem searchSimilar_results store query limit :
  indexed store ->
  let found := searchSimilar store query limit in
  length found = Nat.min limit (length (getAllRules store))
  /\ (exists rest, Permutation (map vsr_rule found ++ rest) (getAllRules store))
  /\ Forall (fun r => r = scored query (vsr_rule r)) found.
Proof.
  intros Hs. cbv zeta. rewrite (searchSimilar_indexed _ _ _ Hs).
  set (cmp := fun a b : VectorSearchResult => (similarity b - similarity a)%num).
  split; [|split].
  - rewrite length_take, sort_length, length_map. reflexivity.
  - set (L := sort cmp (map (scored query) (rules store))).
    assert (HP : Permutation (map vsr_rule L) (rules store)).
    { etransitivity; [apply Permutation_map, sort_Permutation|].
      rewrite map_map. cbn. rewrite map_id. reflexivity. }
    destruct (submseteq_Permutation _ _ (submseteq_take (map vsr_rule L) limit))
      as [rest Hrest].
    exists rest. unfold getAllRules. rewrite <- firstn_map, <- HP. symmetry. exact Hrest.
  - apply Forall_take, sort_Forall, Forall_map, Forall_forall. intros r _. reflexivity.
Qed.

Lemma searchSimilar_results_witness :
  indexed mixed_store
  /\ length (searchSimilar mixed_store "urgent meeting" 2) = 2%nat.
Proof.
  assert (Hs : indexed mixed_store).
  { apply indexed_addRules, indexed_empty. }
  split; [exact Hs|].
  exact (proj1 (searchSimilar_results mixed_store "urgent meeting" 2 Hs)).
Defined.
End ResultFacts.

(* ================================================================== *)
(** * Cancelling and firing *)
(* ================================================================== *)

Module CancelFacts.
Import ReminderService ReminderSpec SchedulerSpec.

Lemma cancelReminder_timer svc rid k :
  activeTimers (cancelReminder svc rid) !! k
  = if decide (k = rid) then None else activeTimers svc !! k.
Proof.
  unfold cancelReminder. cbn.
  destruct (activeTimers svc !! rid) eqn:E; case_decide; subst.
  - apply lookup_delete_eq.
  - apply lookup_delete_ne. congruence.
  - exact E.
  - reflexivity.
Qed.

Lemma cancelReminder_reminders svc rid :
  reminders (cancelReminder svc rid)
  = List.filter (fun r => negb (bool_decide (Reminder.id r = rid))) (reminders svc).
Proof. reflexivity. Qed.

Lemma filter_twice {A} (f : A -> bool) (l : list A) :
  List.filter f (List.filter f l) = List.filter f l.
Proof.
  induction l as [|x l IH]; cbn; [reflexivity|].
  destruct (f x) eqn:E; cbn; rewrite ?E, IH; reflexivity.
Qed.

(** X7.  After [cancelReminder] the remaining reminders are those
    with another id, the id has no timer, the timers of other ids are
    untouched, and cancelling the same id again changes nothing. *)
Theorem cancelReminder_removes svc rid :
  let svc' := cancelReminder svc rid in
  (forall r, In r (getAllReminders svc') <->
             In r (getAllReminders svc) /\ Reminder.id r <> rid)
  /\ activeTimers svc' !! rid = None
  /\ (forall k, k <> rid -> activeTimers svc' !! k = activeTimers svc !! k)
  /\ cancelReminder svc' rid = svc'.
Proof.
  cbv zeta. split; [|split; [|split]].
  - intros r. unfold getAllReminders. rewrite cancelReminder_reminders, filter_In.
    rewrite negb_true_iff, bool_decide_eq_false. reflexivity.
  - rewrite cancelReminder_timer. case_decide; congruence.
  - intros k Hk. rewrite cancelReminder_timer. case_decide; congruence.
  - unfold cancelReminder at 1.
    rewrite cancelReminder_timer. case_decide; [|congruence].
    rewrite cancelReminder_reminders, filter_twice. reflexivity.
Qed.

(** X8.  Cancelling an id that no reminder and no timer carries
    leaves the service as it was. *)
Theorem cancelReminder_unknown svc rid :
  Forall (fun r => Reminder.id r <> rid) (reminders svc) ->
  activeTimers svc !! rid = None ->
  cancelReminder svc rid = svc.
Proof.
  intros Hr Ht. unfold cancelReminder. rewrite Ht. destruct svc as [rs ts]. cbn in *.
  f_equal. induction Hr as [|x l Hx _ IH]; cbn; [reflexivity|].
  rewrite bool_decide_eq_false_2 by exact Hx. cbn. f_equal. exact IH.
Qed.

Lemma cancelReminder_unknown_witness :
  cancelReminder armed.1 99%N = armed.1.
Proof.
  apply cancelReminder_unknown.
  - vm_compute. repeat constructor. discriminate.
  - vm_compute. reflexivity.
Defined.


Lemma fire_cases svc h rid :
  (fire svc h rid = (svc, h)
   /\ (activeTimers svc !! rid = None
       \/ List.find (fun r => bool_decide (Reminder.id r = rid)) (reminders svc) = None))
  \/ exists reminder,
       Reminder.id reminder = rid /\ In reminder (reminders svc)
       /\ is_Some (activeTimers svc !! rid)
       /\ fire svc h rid = sendReminder svc h reminder.
Proof.
  unfold fire.
  destruct (activeTimers svc !! rid) as [t|] eqn:Et; [|left; auto].
  destruct (List.find _ (reminders svc)) as [reminder|] eqn:Ef; [|left; auto].
  right. exists reminder. apply find_some in Ef as [Hin Hid].
  apply bool_decide_eq_true in Hid. eauto.
Qed.

(** X10.  A timer fires at most once: firing again for the same id
    after it has fired changes nothing, and one firing adds at most one
    line to the console. *)
Theorem fire_delivers_once svc h rid :
  let after := fire svc h rid in
  fire after.1 after.2 rid = after
  /\ (Host.console after.2 = Host.console h
      \/ exists line, Host.console after.2 = Host.console h ++ [line]).
Proof.
  cbv zeta.
  destruct (fire_cases svc h rid) as [[-> Hnone] | (reminder & Hid & _ & _ & ->)].
  - cbn [fst snd]. split; [|left; reflexivity].
    unfold fire. destruct Hnone as [-> | ->]; [reflexivity|].
    destruct (activeTimers svc !! rid); reflexivity.
  - subst rid. split; [|right; eexists; reflexivity].
    unfold fire. cbn [sendReminder fst snd activeTimers].
    rewrite lookup_delete_eq. reflexivity.
Qed.

(** ** Cancelling the reminders of a task *)

Lemma cancel_fold_reminders (l : list Reminder.t) svc :
  reminders (fold_left (fun svc reminder => cancelReminder svc (Reminder.id reminder)) l svc)
  = List.filter (fun r => negb (existsb (fun x => bool_decide (Reminder.id r = Reminder.id x)) l))
                (reminders svc).
Proof.
  revert svc. induction l as [|x l IH]; intros svc; cbn [fold_left existsb].
  - cbn. induction (reminders svc) as [|y ys IHy]; cbn; [reflexivity|]. f_equal. exact IHy.
  - rewrite IH, cancelReminder_reminders.
    induction (reminders svc) as [|y ys IHy]; cbn; [reflexivity|].
    destruct (bool_decide (Reminder.id y = Reminder.id x)) eqn:E; cbn.
    + exact IHy.
    + destruct (existsb _ l); cbn; [exact IHy | f_equal; exact IHy].
Qed.

Lemma cancel_fold_timers (l : list Reminder.t) svc k :
  activeTimers (fold_left (fun svc reminder => cancelReminder svc (Reminder.id reminder)) l svc) !! k
  = if existsb (fun x => bool_decide (k = Reminder.id x)) l then None
    else activeTimers svc !! k.
Proof.
  revert svc. induction l as [|x l IH]; intros svc; cbn [fold_left existsb].
  - reflexivity.
  - rewrite IH, cancelReminder_timer.
    destruct (existsb _ l); [rewrite orb_true_r; reflexivity|].
    rewrite orb_false_r. case_decide.
    + rewrite bool_decide_eq_true_2 by assumption. reflexivity.
    + rewrite bool_decide_eq_false_2 by assumption. reflexivity.
Qed.

Lemma sorted_by_time_In_iff y l :
  In y (fold_right insert_by_time [] l) <-> In y l.
Proof.
  split; [apply SchedulerFacts.sorted_by_time_In|].
  induction l as [|x l IH]; cbn; [tauto|].
  assert (Hins : forall z l', In z (insert_by_time x l') <-> z = x \/ In z l').
  { intros z l'. induction l' as [|w l' IHl]; cbn; [intuition congruence|].
    destruct (0 <? _); cbn; rewrite ?IHl; intuition congruence. }
  intros [<- | H]; apply Hins; auto.
Qed.

(** X11.  After [cancelTaskReminders] no reminder of the task is
    left in the service or among the upcoming ones, and none of the
    ids of its former reminders has a timer. *)
Theorem cancelTaskReminders_removes svc tid :
  let svc' := cancelTaskReminders svc tid in
  (forall r, In r (getAllReminders svc') ->
             In r (getAllReminders svc) /\ Reminder.taskId r <> tid)
  /\ (forall now hours r,
        In r (getUpcomingReminders now svc' hours) -> Reminder.taskId r <> tid)
  /\ (forall r, In r (getAllReminders svc) -> Reminder.taskId r = tid ->
                activeTimers svc' !! Reminder.id r = None).
Proof.
  cbv zeta.
  assert (Hrem : forall r, In r (reminders (cancelTaskReminders svc tid)) ->
                           In r (reminders svc) /\ Reminder.taskId r <> tid).
  { intros r. unfold cancelTaskReminders. rewrite cancel_fold_reminders, filter_In.
    intros [Hin Hex]. split; [exact Hin|]. intros Htid.
    apply negb_true_iff in Hex.
    assert (existsb (fun x => bool_decide (Reminder.id r = Reminder.id x))
                    (List.filter (fun r => bool_decide (Reminder.taskId r = tid)) (reminders svc)) = true).
    { apply existsb_exists. exists r. split.
      - apply filter_In. split; [exact Hin|]. apply bool_decide_eq_true_2, Htid.
      - apply bool_decide_eq_true_2. reflexivity. }
    congruence. }
  split; [exact Hrem|]. split.
  - intros now hours r Hr. unfold getUpcomingReminders in Hr.
    apply sorted_by_time_In_iff, filter_In in Hr. destruct Hr as [Hr _].
    apply (Hrem r Hr).
  - intros r Hin Htid. unfold cancelTaskReminders. rewrite cancel_fold_timers.
    replace (existsb _ _) with true; [reflexivity|]. symmetry.
    apply existsb_exists. exists r. split.
    + apply filter_In. split; [exact Hin|]. apply bool_decide_eq_true_2, Htid.
    + apply bool_decide_eq_true_2. reflexivity.
Qed.


End CancelFacts.

(* ================================================================== *)
(** * Upcoming reminders and late requests *)
(* ================================================================== *)

Module UpcomingFacts.
Import ReminderService ReminderSpec SchedulerSpec.

Lemma insert_by_time_Permutation x l : Permutation (insert_by_time x l) (x :: l).
Proof.
  induction l as [|y l IH]; cbn; [reflexivity|].
  destruct (0 <? _); [|reflexivity]. rewrite IH. apply perm_swap.
Qed.

Lemma insert_by_time_sorted x l :
  StronglySorted no_later l -> StronglySorted no_later (insert_by_time x l).
Proof.
  induction 1 as [|y l Hl IH Hy]; cbn.
  - repeat constructor.
  - destruct (Z.ltb_spec 0 (Reminder.scheduledTime x - Reminder.scheduledTime y)).
    + constructor; [exact IH|].
      eapply Permutation_Forall; [symmetry; apply insert_by_time_Permutation|].
      constructor; [unfold no_later; lia | exact Hy].
    + constructor; [constructor; assumption|].
      constructor; [unfold no_later; lia|].
      eapply Forall_impl; [exact Hy|]. unfold no_later. intros z Hz. lia.
Qed.

Lemma sorted_by_time_Permutation l :
  Permutation (fold_right insert_by_time [] l) l.
Proof.
  induction l as [|x l IH]; cbn; [reflexivity|].
  rewrite insert_by_time_Permutation, IH. reflexivity.
Qed.

Lemma sorted_by_time_sorted l :
  StronglySorted no_later (fold_right insert_by_time [] l).
Proof.
  induction l as [|x l IH]; cbn; [constructor|].
  apply insert_by_time_sorted, IH.
Qed.

(** X13.  [getUpcomingReminders] returns, in ascending order of
    scheduled time, exactly the reminders of the service that pass its
    test: each of them is unsent and scheduled between [now] and
    [now] plus the window. *)
Theorem getUpcomingReminders_sorted now svc hours :
  let found := getUpcomingReminders now svc hours in
  StronglySorted no_later found
  /\ Permutation found (List.filter (upcoming now hours) (getAllReminders svc))
  /\ Forall (fun r => Reminder.sent r = false
                      /\ now <= Reminder.scheduledTime r <= now + hours * 60 * 60 * 1000)
            found.
Proof.
  cbv zeta. unfold getUpcomingReminders, getAllReminders.
  change (fun r : Reminder.t =>
            negb (Reminder.sent r)
            && (Reminder.scheduledTime r <=? now + hours * 60 * 60 * 1000)
            && (now <=? Reminder.scheduledTime r)) with (upcoming now hours).
  split; [apply sorted_by_time_sorted|].
  split; [apply sorted_by_time_Permutation|].
  eapply Permutation_Forall; [symmetry; apply sorted_by_time_Permutation|].
  apply Forall_forall. intros r Hr. apply list_elem_of_In in Hr.
  apply filter_In in Hr as [_ Hr]. unfold upcoming in Hr.
  apply andb_true_iff in Hr as [Hr H3]. apply andb_true_iff in Hr as [H1 H2].
  apply negb_true_iff in H1. apply Z.leb_le in H2, H3.
  split; [exact H1 | lia].
Qed.

(** ** Late requests *)

(** X14.  A reminder scheduled for an instant at most five
    minutes (exclusive) in the past is sent at once: it is recorded as
    sent, has no timer, and the host gets its console line and event. *)
Theorem scheduleReminder_grace now svc h task reminderTime type :
  now - 300000 < reminderTime <= now ->
  let reminder := new_reminder h task reminderTime type in
  let after := scheduleReminder now svc h task reminderTime type in
  In (Reminder.mark_sent reminder) (getAllReminders after.1)
  /\ activeTimers after.1 !! Reminder.id reminder = None
  /\ Host.console after.2
     = Host.console h ++ ["🔔 REMINDER: " +:+ generateReminderMessage task type]
  /\ Host.dispatched after.2 = Host.dispatched h ++ [Reminder.mark_sent reminder].
Proof.
  intros Hrt. cbv zeta. unfold scheduleReminder, scheduleNotification, new_reminder.
  cbn [Host.randomUUID Reminder.scheduledTime Reminder.id].
  destruct (Z.ltb_spec 0 (reminderTime - now)); [lia|].
  destruct (Z.ltb_spec (-300000) (reminderTime - now)); [|lia].
  cbn [sendReminder fst snd getAllReminders reminders activeTimers Reminder.id
       Reminder.message Host.console Host.dispatched].
  repeat split.
  - unfold set_sent. rewrite map_app. apply in_or_app. right. cbn.
    destruct (decide _); [left; reflexivity | congruence].
  - apply lookup_delete_eq.
Qed.

Lemma scheduleReminder_grace_witness :
  In (Reminder.mark_sent (new_reminder (Host.init false) (report_task high ten_o_clock)
                                       (ten_o_clock - 60000) deadline))
     (getAllReminders
        (scheduleReminder ten_o_clock ReminderService.empty (Host.init false)
                          (report_task high ten_o_clock) (ten_o_clock - 60000) deadline).1).
Proof.
  refine (proj1 (scheduleReminder_grace ten_o_clock ReminderService.empty (Host.init false)
                   (report_task high ten_o_clock) (ten_o_clock - 60000) deadline _)).
  unfold ten_o_clock. lia.
Defined.

(** X15.  A reminder scheduled for an instant five minutes or
    more in the past is recorded unsent, with no timer and nothing sent
    to the host; it never fires and is never among the upcoming
    reminders from then on. *)
Theorem scheduleReminder_stale now svc h task reminderTime type :
  reminderTime <= now - 300000 ->
  activeTimers svc !! Host.next_uuid h = None ->
  let reminder := new_reminder h task reminderTime type in
  let after := scheduleReminder now svc h task reminderTime type in
  getAllReminders after.1 = getAllReminders svc ++ [reminder]
  /\ Host.console after.2 = Host.console h
  /\ Host.dispatched after.2 = Host.dispatched h
  /\ fire after.1 after.2 (Reminder.id reminder) = after
  /\ forall now' hours,
       now <= now' -> ~ In reminder (getUpcomingReminders now' after.1 hours).
Proof.
  intros Hrt Hfresh. cbv zeta.
  unfold scheduleReminder, scheduleNotification, new_reminder.
  cbn [Host.randomUUID Reminder.scheduledTime Reminder.id].
  destruct (Z.ltb_spec 0 (reminderTime - now)); [lia|].
  destruct (Z.ltb_spec (-300000) (reminderTime - now)); [lia|].
  cbn [fst snd getAllReminders reminders Host.console Host.dispatched].
  repeat split.
  - unfold fire. cbn [activeTimers]. rewrite Hfresh. reflexivity.
  - intros now' hours Hn Hin. unfold getUpcomingReminders in Hin.
    apply CancelFacts.sorted_by_time_In_iff, filter_In in Hin as [_ Hin].
    cbn in Hin. apply andb_true_iff in Hin as [_ Hin]. apply Z.leb_le in Hin. lia.
Qed.

Lemma scheduleReminder_stale_witness :
  getAllReminders
    (scheduleReminder ten_o_clock ReminderService.empty (Host.init false)
                      (report_task high ten_o_clock) (ten_o_clock - 600000) deadline).1
  = [new_reminder (Host.init false) (report_task high ten_o_clock)
                  (ten_o_clock - 600000) deadline].
Proof.
  refine (proj1 (scheduleReminder_stale ten_o_clock ReminderService.empty (Host.init false)
                   (report_task high ten_o_clock) (ten_o_clock - 600000) deadline _ _)).
  - unfold ten_o_clock. lia.
  - reflexivity.
Defined.
End UpcomingFacts.

(* ================================================================== *)
(** * Reminder offsets *)
(* ================================================================== *)

Module OffsetFacts.
Import ReminderService ReminderSpec SchedulerSpec ReminderFacts.


(** X16.  For a task due in more than 24 hours the reminder time
    is the due date less 2 hours (high), 4 hours (medium) or 24 hours
    (low). *)
Theorem calculateReminderTime_far now task priority :
  24 * 60 * 60 * 1000 < dueDate_or_default now task - now ->
  calculateReminderTime now task priority
  = dueDate_or_default now task - lead_time priority.
Proof.
  intros Hfar. rewrite calculateReminderTime_eq. cbv zeta.
  unfold reminderOffset. cbv zeta.
  set (due := dueDate_or_default now task) in *.
  destruct (Z.leb_spec (due - now) (24 * 60 * 60 * 1000)); [lia|].
  destruct priority; cbn [lead_time];
    repeat match goal with
           | |- context [?a <=? ?b] => destruct (Z.leb_spec a b); [lia|]
           end;
    rewrite newDate_minus_inject_Z;
    match goal with |- context [now <? ?x] => destruct (Z.ltb_spec now x) end; lia.
Qed.

Lemma calculateReminderTime_far_witness :
  calculateReminderTime ten_o_clock (report_task medium (ten_o_clock + 48 * ms_per_hour)) medium
  = ten_o_clock + 44 * ms_per_hour.
Proof.
  rewrite calculateReminderTime_far; [reflexivity|]. vm_compute. reflexivity.
Defined.

(** X17.  For a task due within 24 hours the stated
    priority does not matter: the reminder time is the one of a high
    priority task. *)
Theorem calculateReminderTime_within_a_day now task priority :
  dueDate_or_default now task - now <= 24 * 60 * 60 * 1000 ->
  calculateReminderTime now task priority = calculateReminderTime now task high.
Proof.
  intros Hd. unfold calculateReminderTime. cbv zeta.
  fold (dueDate_or_default now task).
  destruct (Z.leb_spec (dueDate_or_default now task - now) (24 * 60 * 60 * 1000)); [|lia].
  reflexivity.
Qed.

Lemma calculateReminderTime_within_a_day_witness :
  calculateReminderTime ten_o_clock (report_task low (ten_o_clock + 3 * ms_per_hour)) low
  = calculateReminderTime ten_o_clock (report_task low (ten_o_clock + 3 * ms_per_hour)) high.
Proof. apply calculateReminderTime_within_a_day. vm_compute. discriminate. Defined.

(** X18.  A task without a due date is treated as due in 24
    hours, and is recalled 22 hours from [now], whatever its priority. *)
Theorem calculateReminderTime_no_due_date now task priority :
  Task.dueDate task = None ->
  calculateReminderTime now task priority = now + 22 * ms_per_hour.
Proof.
  intros Hn. unfold calculateReminderTime. rewrite Hn. cbv [default from_option].
  replace (now + 24 * 60 * 60 * 1000 - now) with 86400000 by lia.
  repeat match goal with
         | |- context [86400000 <=? ?c] =>
             let b := eval vm_compute in (86400000 <=? c) in
             change (86400000 <=? c) with b
         end.
  cbv iota. rewrite newDate_minus_inject_Z. unfold ms_per_hour.
  destruct (Z.ltb_spec now (now + 24 * 60 * 60 * 1000 - 2 * 60 * 60 * 1000)); lia.
Qed.

Lemma calculateReminderTime_no_due_date_witness :
  calculateReminderTime ten_o_clock
    (Task.mk 7%N "Submit report" low pending None None None [] ten_o_clock ten_o_clock) low
  = ten_o_clock + 22 * ms_per_hour.
Proof. apply calculateReminderTime_no_due_date. reflexivity. Defined.

(** The offset is a quarter of a hour at least. *)
Lemma reminderOffset_at_least now task priority :
  Qle (inject_Z (15 * 60 * 1000)) (reminderOffset now task priority).
Proof.
  unfold reminderOffset. cbv zeta. unfold Qmax.
  repeat match goal with
         | |- context [if ?b then _ else _] => destruct b eqn:?
         | |- context [match ?p with high => _ | medium => _ | low => _ end] =>
             destruct p
         end;
    repeat match goal with
           | H : Qle_bool _ _ = true |- _ => apply Qle_bool_iff in H
           | H : Qle_bool _ _ = false |- _ =>
               apply not_true_iff_false in H; rewrite Qle_bool_iff in H;
               apply Qnot_le_lt in H; apply Qlt_le_weak in H
           end;
    try (unfold Qle, inject_Z; cbn; lia);
    try assumption;
    try (eapply Qle_trans; [|eassumption]; unfold Qle, inject_Z; cbn; lia).
Qed.

(** Before the clamp, the reminder is a quarter of an hour before the due
    date at least. *)
Lemma unclamped_bound now task priority :
  newDate (inject_Z (dueDate_or_default now task) - reminderOffset now task priority)
  <= dueDate_or_default now task - 15 * 60 * 1000.
Proof.
  pose proof (reminderOffset_at_least now task priority) as Hoff.
  generalize dependent (reminderOffset now task priority). intros off Hoff.
  set (due := dueDate_or_default now task) in *.
  assert (Hq : Qle (inject_Z due - off) (inject_Z (due - 15 * 60 * 1000))).
  { destruct off as [n d]. unfold Qle, Qminus, Qplus, Qopp, inject_Z in *.
    cbn in *. nia. }
  unfold newDate. destruct (Qle_bool 0 (inject_Z due - off)) eqn:E.
  - rewrite <- (Qfloor_Z (due - 15 * 60 * 1000)). apply Qfloor_resp_le, Hq.
  - rewrite <- (Qceiling_Z (due - 15 * 60 * 1000)). apply Qceiling_resp_le, Hq.
Qed.

Lemma calculateReminderTime_clamped now task priority :
  dueDate_or_default now task <= now + 15 * 60 * 1000 ->
  calculateReminderTime now task priority = now + 5 * 60 * 1000.
Proof.
  intros Hd. rewrite calculateReminderTime_eq. cbv zeta.
  pose proof (unclamped_bound now task priority).
  destruct (Z.ltb_spec now (newDate (inject_Z (dueDate_or_default now task)
                                     - reminderOffset now task priority))); lia.
Qed.

(** X19.  The reminder time is either [now] plus five minutes (the
    fallback) or at least fifteen minutes before the due date. *)
Theorem calculateReminderTime_lead now task priority :
  calculateReminderTime now task priority = now + 5 * 60 * 1000
  \/ calculateReminderTime now task priority
     <= dueDate_or_default now task - 15 * 60 * 1000.
Proof.
  rewrite calculateReminderTime_eq. cbv zeta.
  pose proof (unclamped_bound now task priority).
  destruct (Z.ltb_spec now (newDate (inject_Z (dueDate_or_default now task)
                                     - reminderOffset now task priority)));
    [right; assumption | left; reflexivity].
Qed.
End OffsetFacts.

(* ================================================================== *)
(** * Patterns *)
(* ================================================================== *)

Module RegexFacts.
Import Regex.


End RegexFacts.

(* ================================================================== *)
(** * Priorities and due dates *)
(* ================================================================== *)

Module EngineFacts.
Import RAGAgent AgentSpec EngineSpec ReminderSpec TaskFacts RegexFacts.

(** ** [getPriorityFromRules] *)

Lemma fold_max_ge c ps p :
  c <= fold_left Z.max ps p <-> c <= p \/ Exists (fun q => c <= q) ps.
Proof.
  revert p. induction ps as [|q ps IH]; intros p; cbn.
  - rewrite Exists_nil. tauto.
  - rewrite IH, Exists_cons.
    assert (c <= Z.max p q <-> c <= p \/ c <= q) by lia. tauto.
Qed.

Lemma existsb_priority c (rules : list Rule.t) :
  existsb (fun r => c <=? Rule.priority r) rules = true
  <-> Exists (fun q => c <= q) (map Rule.priority rules).
Proof.
  induction rules as [|r rs IH]; cbn.
  - rewrite Exists_nil. split; [discriminate | tauto].
  - rewrite Exists_cons, orb_true_iff, IH, Z.leb_le. reflexivity.
Qed.

(** X20.  [getPriorityFromRules] depends on the most important
    rule only: medium for no rules; otherwise high if some rule has
    priority 8 or more, else medium if some rule has priority 4 or
    more, else low. *)
Theorem getPriorityFromRules_most_important rules :
  getPriorityFromRules rules = priority_of_set rules.
Proof.
  unfold getPriorityFromRules, priority_of_set.
  destruct rules as [|r rs]; [reflexivity|]. cbn [map].
  pose proof (fold_max_ge 8 (map Rule.priority rs) (Rule.priority r)) as H8.
  pose proof (fold_max_ge 4 (map Rule.priority rs) (Rule.priority r)) as H4.
  pose proof (existsb_priority 8 (r :: rs)) as E8.
  pose proof (existsb_priority 4 (r :: rs)) as E4.
  cbn [map] in E8, E4. rewrite Exists_cons in E8, E4.
  set (m := fold_left Z.max (map Rule.priority rs) (Rule.priority r)) in *.
  destruct (existsb (fun r0 => 8 <=? Rule.priority r0) (r :: rs)).
  - assert (8 <= m) by (apply H8, E8; reflexivity).
    destruct (Z.leb_spec 8 m); [reflexivity | lia].
  - assert (~ 8 <= m) by (intros G; apply H8, E8 in G; discriminate).
    destruct (Z.leb_spec 8 m); [contradiction|].
    destruct (existsb (fun r0 => 4 <=? Rule.priority r0) (r :: rs)).
    + assert (4 <= m) by (apply H4, E4; reflexivity).
      destruct (Z.leb_spec 4 m); [reflexivity | lia].
    + assert (~ 4 <= m) by (intros G; apply H4, E4 in G; discriminate).
      destruct (Z.leb_spec 4 m); [contradiction | reflexivity].
Qed.

(** ** Due dates read from the input *)







(** X22.  When the input matches the pattern for today and the
    local time is 18:00 or later, the due date read is 18:00 of the
    current day, in the past; every task with that due date gets the
    fallback reminder time, [now] plus five minutes. *)
Theorem extractDueDate_today_after_six now tz input :
  Regex.test re_today input = true ->
  18 * ms_per_hour <= time_of_day now tz ->
  exists d,
    extractDueDate now tz input = Some d
    /\ d = now - (time_of_day now tz - 18 * ms_per_hour)
    /\ d <= now
    /\ forall task priority,
         Task.dueDate task = Some d ->
         ReminderService.calculateReminderTime now task priority = now + 5 * 60 * 1000.
Proof.
  intros Ht Hlate. eexists. split; [|split; [|split]].
  - unfold extractDueDate. rewrite Ht. reflexivity.
  - unfold setHours, time_of_day, ms_per_hour, ms_per_minute in *.
    pose proof (Z.div_mod (now + tz) (24 * (60 * 60 * 1000)) ltac:(lia)). lia.
  - unfold setHours, time_of_day, ms_per_hour, ms_per_minute in *.
    pose proof (Z.div_mod (now + tz) (24 * (60 * 60 * 1000)) ltac:(lia)). lia.
  - intros task priority Hd. apply OffsetFacts.calculateReminderTime_clamped.
    unfold dueDate_or_default. rewrite Hd. cbn.
    unfold setHours, time_of_day, ms_per_hour, ms_per_minute in *.
    pose proof (Z.div_mod (now + tz) (24 * (60 * 60 * 1000)) ltac:(lia)). lia.
Qed.

Lemma extractDueDate_today_after_six_witness :
  exists d,
    extractDueDate (ten_o_clock + 10 * ms_per_hour) 0 "finish the report today"
    = Some d /\ d <= ten_o_clock + 10 * ms_per_hour.
Proof.
  destruct (extractDueDate_today_after_six (ten_o_clock + 10 * ms_per_hour) 0
              "finish the report today") as (d & H1 & _ & H2 & _).
  - reflexivity.
  - vm_compute. discriminate.
  - exists d. split; assumption.
Defined.
End EngineFacts.

(* ================================================================== *)
(** * Generated tasks *)
(* ================================================================== *)

Module GenerationFacts.
Import RAGAgent AgentSpec EngineSpec ReminderSpec TaskFacts RegexFacts.

Section Clock.
Variables (now : Date) (tz : Z).

Lemma extractActionItems_no_action response input :
  names_action response = false ->
  extractActionItems now tz response input = [defaultItem now tz input].
Proof.
  unfold names_action, extractActionItems. cbv zeta. intros Hn.
  apply orb_false_iff in Hn as [Hn H3]. apply orb_false_iff in Hn as [H1 H2].
  rewrite H1, H2, H3.
  destruct (Regex.test re_urgent input),
    (isUrgentTimeframe input || Regex.test re_within_day input); reflexivity.
Qed.

Lemma extractActionItems_count response input :
  (1 <= length (extractActionItems now tz response input) <= 3)%nat.
Proof.
  unfold extractActionItems. cbv zeta.
  destruct (Regex.test re_reschedule response), (Regex.test re_cancel response),
    (Regex.test re_check response), (Regex.test re_urgent input),
    (isUrgentTimeframe input || Regex.test re_within_day input);
    cbn [app map length Nat.eqb]; lia.
Qed.


Lemma tasks_from_length appliedRules n items :
  length (tasks_from now appliedRules n items) = length items.
Proof.
  revert n. induction items as [|i items IH]; intros n; cbn; [reflexivity|].
  f_equal. apply IH.
Qed.

Lemma tasks_from_bookkeeping appliedRules n items :
  Forall (fun t => Task.status t = pending
                   /\ Task.createdAt t = now /\ Task.updatedAt t = now
                   /\ Task.reminderSent t = None
                   /\ Task.appliedRules t = appliedRules)
         (map (with_reminder now) (tasks_from now appliedRules n items)).
Proof.
  revert n. induction items as [|i items IH]; intros n; cbn; constructor; auto.
Qed.


End Clock.

Lemma searchSimilar_from_store store query limit :
  Forall (fun x => In (vsr_rule x) (VectorStore.rules store))
         (VectorStore.searchSimilar store query limit).
Proof.
  unfold VectorStore.searchSimilar.
  apply Forall_take, SearchFacts.sort_Forall.
  induction (VectorStore.rules store) as [|r rs IH]; cbn; [constructor|].
  destruct (Rule.embedding r); cbn.
  - constructor; [left; reflexivity|].
    eapply Forall_impl; [exact IH|]. cbn. auto.
  - eapply Forall_impl; [exact IH|]. cbn. auto.
Qed.

(** ** An empty index *)

(** X23.  With no rules in the index, [processUserInput] answers
    with the no-rules text and confidence 0, and
    [generateTaskRecommendations] returns exactly one task, the default
    item built from the input, with no applied rules. *)
Theorem empty_index_one_task now tz agent h input :
  VectorStore.getAllRules (vectorStore agent) = [] ->
  processUserInput agent input
  = Some {| response := no_rules_response; relevantRules := [];
            confidence := Num.zero |}
  /\ exists task agent' h',
       generateTaskRecommendations now tz agent h input = Some ([task], agent', h')
       /\ drafted task = (Item.content (defaultItem now tz input),
                          Item.priority (defaultItem now tz input),
                          Item.dueDate (defaultItem now tz input))
       /\ Task.appliedRules task = [].
Proof.
  intros Hempty.
  assert (Hp : processUserInput agent input
               = Some {| response := no_rules_response; relevantRules := [];
                         confidence := Num.zero |}).
  { unfold processUserInput, VectorStore.searchSimilar.
    unfold VectorStore.getAllRules in Hempty. rewrite Hempty. cbn.
    reflexivity. }
  split; [exact Hp|].
  destruct (generateTaskRecommendations_spec now tz agent h input)
    as (r & timers & Hr & Hg & _).
  rewrite Hp in Hr. injection Hr as <-. cbv zeta in Hg.
  cbn [response relevantRules] in Hg.
  rewrite (extractActionItems_no_action now tz no_rules_response input) in Hg
    by (vm_compute; reflexivity).
  cbn [tasks_from map] in Hg. eexists _, _, _. split; [exact Hg|].
  split; reflexivity.
Qed.

Lemma empty_index_one_task_witness :
  exists task agent' h',
    generateTaskRecommendations ten_o_clock 0
      (RAGAgent.mk VectorStore.empty ReminderService.empty) (Host.init false)
      "buy milk"
    = Some ([task], agent', h')
    /\ Task.content task = "Handle: buy milk".
Proof.
  destruct (empty_index_one_task ten_o_clock 0
              (RAGAgent.mk VectorStore.empty ReminderService.empty) (Host.init false)
              "buy milk" eq_refl) as (_ & task & agent' & h' & Hg & Hd & _).
  exists task, agent', h'. split; [exact Hg|].
  injection Hd as Hc _ _. exact Hc.
Defined.

(** ** Bookkeeping *)

(** X24.  Every run of [generateTaskRecommendations] returns
    between one and three tasks with distinct ids; each is pending,
    created and updated at [now], has no [reminderSent] field, and
    lists as applied rules the ids of the at most three retrieved rules,
    all of them rules of the store; the store itself is unchanged. *)
Theorem generated_tasks_bookkeeping now tz agent h input :
  exists r tasks agent' h',
    processUserInput agent input = Some r
    /\ generateTaskRecommendations now tz agent h input = Some (tasks, agent', h')
    /\ (1 <= length tasks <= 3)%nat
    /\ List.NoDup (map Task.id tasks)
    /\ (length (relevantRules r) <= 3)%nat
    /\ Forall (fun rule => In rule (VectorStore.getAllRules (vectorStore agent)))
              (relevantRules r)
    /\ Forall (fun t => Task.status t = pending
                        /\ Task.createdAt t = now /\ Task.updatedAt t = now
                        /\ Task.reminderSent t = None
                        /\ Task.appliedRules t = map Rule.id (relevantRules r))
              tasks
    /\ vectorStore agent' = vectorStore agent.
Proof.
  destruct (generateTaskRecommendations_spec now tz agent h input)
    as (r & timers & Hr & Hg & _).
  cbv zeta in Hg. exists r. eexists _, _, _.
  split; [exact Hr|]. split; [exact Hg|].
  destruct (ResponseFacts.processUserInput_spec agent input) as [text Ht].
  rewrite Ht in Hr. injection Hr as <-. cbn [relevantRules response].
  split; [|split; [|split; [|split; [|split]]]].
  - rewrite length_map, tasks_from_length. apply extractActionItems_count.
  - rewrite RecommendationFacts.with_reminder_ids. apply tasks_from_NoDup.
  - rewrite length_map. apply SearchFacts.searchSimilar_length.
  - apply Forall_map. apply searchSimilar_from_store.
  - apply tasks_from_bookkeeping.
  - reflexivity.
Qed.

(** ** Time conflicts *)





End GenerationFacts.

(* ================================================================== *)
(** * Documents *)
(* ================================================================== *)

Module DocumentFacts.
Import DocumentProcessor DocumentSpec.

Lemma split_nonempty sep s : split sep s <> [].
Proof.
  destruct s as [|c s]; cbn; [discriminate|].
  destruct (Ascii.eqb c sep); [discriminate|].
  destruct (split sep s); discriminate.
Qed.

Lemma join_cons_char d c p ps :
  join d (String c p :: ps) = String c (join d (p :: ps)).
Proof. destruct ps; reflexivity. Qed.

Lemma join_split sep d s : join d (split sep s) = replace_char sep d s.
Proof.
  induction s as [|c s IH]; [reflexivity|]. cbn [split replace_char].
  destruct (Ascii.eqb c sep).
  - pose proof (split_nonempty sep s) as Hne.
    destruct (split sep s) as [|p ps]; [congruence|].
    rewrite <- IH. reflexivity.
  - pose proof (split_nonempty sep s) as Hne.
    destruct (split sep s) as [|p ps]; [congruence|].
    rewrite join_cons_char, IH. reflexivity.
Qed.

Lemma replace_char_self sep s : replace_char sep (String sep EmptyString) s = s.
Proof.
  induction s as [|c s IH]; [reflexivity|]. cbn.
  destruct (Ascii.eqb_spec c sep); [subst|]; rewrite IH; reflexivity.
Qed.

Lemma append_assoc (a b c : string) : (a +:+ b) +:+ c = a +:+ (b +:+ c).
Proof.
  induction a as [|x a IH]; [reflexivity|].
  change (String x ((a +:+ b) +:+ c) = String x (a +:+ (b +:+ c))).
  rewrite IH. reflexivity.
Qed.

Lemma replace_char_app sep d a b :
  replace_char sep d (a +:+ b) = replace_char sep d a +:+ replace_char sep d b.
Proof.
  induction a as [|c a IH]; [reflexivity|].
  change (String c a +:+ b) with (String c (a +:+ b)). cbn [replace_char].
  destruct (Ascii.eqb c sep); rewrite IH; [|reflexivity].
  symmetry. apply append_assoc.
Qed.

Lemma replace_char_join sep d n l :
  Ascii.eqb n sep = false ->
  replace_char sep d (join (String n EmptyString) l)
  = join (String n EmptyString) (map (replace_char sep d) l).
Proof.
  intros Hn. induction l as [|x l IH]; [reflexivity|].
  destruct l as [|y l]; [reflexivity|].
  change (join (String n EmptyString) (x :: y :: l))
    with (x +:+ String n EmptyString +:+ join (String n EmptyString) (y :: l)).
  rewrite !replace_char_app, IH. cbn [replace_char]. rewrite Hn. reflexivity.
Qed.

Lemma mentions_app c a b :
  mentions c (a +:+ b) = mentions c a || mentions c b.
Proof.
  induction a as [|x a IH]; [reflexivity|].
  change (String x a +:+ b) with (String x (a +:+ b)). cbn [mentions].
  rewrite IH. apply orb_assoc.
Qed.

Lemma replace_char_clean sep d s :
  mentions sep d = false -> mentions sep (replace_char sep d s) = false.
Proof.
  intros Hd. induction s as [|c s IH]; [reflexivity|]. cbn [replace_char].
  destruct (Ascii.eqb c sep) eqn:E.
  - rewrite mentions_app, Hd, IH. reflexivity.
  - cbn [mentions]. rewrite E. exact IH.
Qed.

(** ** Comma-separated files *)

(** X26.  [extractCSVContent] replaces every comma by a bar
    between two spaces and changes nothing else: the result holds no
    comma, and a text without commas is returned as it is. *)
Theorem extractCSVContent_replaces_commas text :
  extractCSVContent text = replace_char comma " | " text
  /\ mentions comma (extractCSVContent text) = false
  /\ (mentions comma text = false -> extractCSVContent text = text).
Proof.
  assert (H : extractCSVContent text = replace_char comma " | " text).
  { unfold extractCSVContent.
    rewrite (map_ext _ (replace_char comma " | "))
      by (intros line; apply join_split).
    rewrite <- replace_char_join by reflexivity.
    rewrite join_split, replace_char_self. reflexivity. }
  split; [exact H|]. rewrite H. split.
  - apply replace_char_clean. reflexivity.
  - clear H. induction text as [|c s IH]; [reflexivity|]. cbn.
    intros Hm. apply orb_false_iff in Hm as [-> Hm]. rewrite IH by exact Hm.
    reflexivity.
Qed.

(** ** Lines *)

Lemma split_two_lines sep a b :
  split sep (a +:+ String sep b) = split sep a ++ split sep b.
Proof.
  induction a as [|c a IH].
  - change (split sep (String sep b) = [EmptyString] ++ split sep b).
    cbn [split]. rewrite Ascii.eqb_refl. reflexivity.
  - change (String c a +:+ String sep b) with (String c (a +:+ String sep b)).
    cbn [split]. destruct (Ascii.eqb c sep); rewrite IH; [reflexivity|].
    pose proof (split_nonempty sep a) as Hne.
    destruct (split sep a); [congruence|reflexivity].
Qed.

Lemma split_all_space sep s :
  all_space s = true -> Forall (fun p => all_space p = true) (split sep s).
Proof.
  induction s as [|c s IH]; cbn; [repeat constructor|].
  intros H. apply andb_true_iff in H as [Hc Hs]. specialize (IH Hs).
  destruct (Ascii.eqb c sep); [constructor; [reflexivity|exact IH]|].
  destruct (split sep s) as [|p ps]; [repeat constructor; cbn; rewrite Hc; reflexivity|].
  inversion IH; subst. constructor; [|assumption]. cbn. rewrite Hc. assumption.
Qed.

Lemma trim_all_space s : all_space s = true -> trim s = EmptyString.
Proof.
  unfold trim. induction s as [|c s IH]; [reflexivity|]. cbn.
  intros H. apply andb_true_iff in H as [-> Hs]. auto.
Qed.


Lemma trimStart_clean s : starts_clean (trimStart s) = true.
Proof.
  induction s as [|c s IH]; [reflexivity|]. cbn.
  destruct (Str.is_space c) eqn:E; [exact IH|]. cbn. rewrite E. reflexivity.
Qed.

Lemma trimEnd_clean s : starts_clean s = true -> starts_clean (trimEnd s) = true.
Proof.
  destruct s as [|c s]; [reflexivity|]. cbn. intros H.
  destruct (trimEnd s); [|exact H].
  destruct (Str.is_space c) eqn:E; [discriminate|]. cbn. rewrite E. reflexivity.
Qed.

Lemma trimStart_id s : starts_clean s = true -> trimStart s = s.
Proof.
  destruct s as [|c s]; [reflexivity|]. cbn.
  destruct (Str.is_space c); [discriminate|reflexivity].
Qed.

Lemma trimEnd_idem s : trimEnd (trimEnd s) = trimEnd s.
Proof.
  induction s as [|c s IH]; [reflexivity|]. cbn.
  destruct (trimEnd s) as [|a t] eqn:E.
  - destruct (Str.is_space c) eqn:Ec; [reflexivity|]. cbn. rewrite Ec. reflexivity.
  - cbn [trimEnd]. cbn [trimEnd] in IH. rewrite IH. reflexivity.
Qed.

Lemma trim_idem s : trim (trim s) = trim s.
Proof.
  unfold trim. rewrite (trimStart_id (trimEnd (trimStart s))).
  - apply trimEnd_idem.
  - apply trimEnd_clean, trimStart_clean.
Qed.

Lemma extractPriority_values line : In (extractPriority line) [10; 5; 1; 3].
Proof.
  unfold extractPriority.
  repeat match goal with |- context [if ?b then _ else _] => destruct b end;
    cbn; auto.
Qed.

Section Identifiers.
Variable uuid_text : uuid -> string.

(** The loop, from any state: it appends one rule per accepted line and
    draws one identifier for each. *)
Lemma extractRules_loop fileType lines acc :
  let kept := List.filter isRule (map trim lines) in
  let out := fold_left (extractRules_step uuid_text fileType) lines acc in
  out.1 = acc.1 ++ map (fun '(i, line) => rule_of_line uuid_text fileType i line)
                       (combine (draws acc.2 (length kept)) kept)
  /\ Host.next_uuid out.2 = (Host.next_uuid acc.2 + N.of_nat (length kept))%N.
Proof.
  cbv zeta. revert acc. induction lines as [|l lines IH]; intros [rules h].
  - cbn. rewrite app_nil_r, N.add_0_r. auto.
  - cbn [fold_left map List.filter]. unfold extractRules_step at 2 4. cbn [fst snd].
    destruct (isRule (trim l)) eqn:E.
    + specialize (IH (rules ++ [rule_of_line uuid_text fileType (Host.next_uuid h) (trim l)],
                      (Host.randomUUID h).2)).
      cbn [fst snd Host.randomUUID Host.next_uuid] in IH |- *.
      destruct IH as [IH1 IH2]. rewrite IH1, IH2. split; [|cbn [length]; lia].
      rewrite <- app_assoc. f_equal. cbn [length]. unfold draws.
      cbn [seq map combine app Host.next_uuid]. rewrite N.add_0_r. f_equal.
      f_equal. f_equal. rewrite <- seq_shift, map_map. apply map_ext. intros k. lia.
    + apply (IH (rules, h)).
Qed.

Lemma extractRules_eq content fileType h :
  let kept :=
    List.filter isRule
      (map trim (List.filter (fun line => truthy (trim line))
                             (split newline content))) in
  (extractRules uuid_text content fileType h).1
  = map (fun '(i, line) => rule_of_line uuid_text fileType i line)
        (combine (draws h (length kept)) kept)
  /\ Host.next_uuid (extractRules uuid_text content fileType h).2
     = (Host.next_uuid h + N.of_nat (length kept))%N.
Proof. apply (extractRules_loop fileType _ ([], h)). Qed.

Lemma draws_length h n : length (draws h n) = n.
Proof. unfold draws. rewrite length_map, length_seq. reflexivity. Qed.

Lemma map_combine_snd {A B C} (f : A -> B -> C) (g : B -> C) (l : list A) (k : list B) :
  (forall a b, f a b = g b) -> length l = length k ->
  map (fun '(a, b) => f a b) (combine l k) = map g k.
Proof.
  intros Hf. revert k. induction l as [|a l IH]; intros [|b k]; cbn; try discriminate.
  - reflexivity.
  - intros [= H]. rewrite Hf, IH by exact H. reflexivity.
Qed.

Lemma extractRules_bodies content fileType h :
  map body (extractRules uuid_text content fileType h).1
  = map (fun line => (line, fileType, extractPriority line, extractCategory line))
        (List.filter isRule
           (map trim (List.filter (fun line => truthy (trim line))
                                  (split newline content)))).
Proof.
  destruct (extractRules_eq content fileType h) as [-> _].
  rewrite map_map.
  rewrite <- (map_combine_snd
                (fun (i : uuid) line => body (rule_of_line uuid_text fileType i line))
                (fun line => (line, fileType, extractPriority line, extractCategory line))
                (draws h _) _ (fun _ _ => eq_refl) (draws_length h _)).
  apply map_ext. intros [i line]. reflexivity.
Qed.

(** ** What every extracted rule looks like *)

(** X27.  Every rule [extractRules] returns has a content that
    passes [isRule], is trimmed and not empty; its source is the file
    type, its priority, one of 10, 5, 1 and 3, and its category are
    those read from the content, and it has no embedding.  The ids are
    the texts of consecutive draws, one draw per rule. *)
Theorem extractRules_fields content fileType h :
  let out := extractRules uuid_text content fileType h in
  Forall (fun r => isRule (Rule.content r) = true
                   /\ trim (Rule.content r) = Rule.content r
                   /\ Rule.content r <> EmptyString
                   /\ Rule.source r = fileType
                   /\ Rule.priority r = extractPriority (Rule.content r)
                   /\ In (Rule.priority r) [10; 5; 1; 3]
                   /\ Rule.category r = extractCategory (Rule.content r)
                   /\ Rule.embedding r = None)
         out.1
  /\ map Rule.id out.1 = map uuid_text (draws h (length out.1))
  /\ Host.next_uuid out.2 = (Host.next_uuid h + N.of_nat (length out.1))%N.
Proof.
  cbv zeta. destruct (extractRules_eq content fileType h) as [H1 H2].
  cbv zeta in H1, H2. rewrite H1, H2.
  set (kept := List.filter isRule _).
  assert (Hk : Forall (fun line => isRule line = true /\ trim line = line
                                    /\ line <> EmptyString) kept).
  { apply List.Forall_forall. intros line Hin. unfold kept in Hin.
    apply filter_In in Hin as [Hin Hr]. apply in_map_iff in Hin as (l0 & <- & Hl0).
    apply filter_In in Hl0 as [_ Ht]. split; [exact Hr|]. split; [apply trim_idem|].
    destruct (trim l0); [discriminate|discriminate]. }
  assert (Hlen : length (map (fun '(i, line) => rule_of_line uuid_text fileType i line)
                             (combine (draws h (length kept)) kept)) = length kept).
  { rewrite length_map, length_combine, draws_length. lia. }
  rewrite Hlen. split; [|split; [|reflexivity]].
  - apply List.Forall_forall. intros r Hin.
    apply in_map_iff in Hin as ([i line] & <- & Hin). apply in_combine_r in Hin.
    rewrite List.Forall_forall in Hk. destruct (Hk line Hin) as (Hr & Ht & Hn).
    cbn. repeat split; auto. apply extractPriority_values.
  - rewrite map_map.
    generalize (draws_length h (length kept)). generalize (draws h (length kept)).
    intros ids. generalize kept. clear. induction ids as [|i ids IH]; intros [|l k]; cbn;
      try discriminate; [reflexivity|].
    intros [= H]. rewrite IH by exact H. reflexivity.
Qed.

(** ** Documents put together *)

(** X28.  Rules are read line by line: apart from their ids,
    the rules of two texts joined by a line break are the rules of the
    first followed by the rules of the second. *)
Theorem extractRules_two_documents a b fileType h h' h'' :
  map body (extractRules uuid_text (two_lines a b) fileType h).1
  = map body (extractRules uuid_text a fileType h').1
    ++ map body (extractRules uuid_text b fileType h'').1.
Proof.
  rewrite !extractRules_bodies. unfold two_lines.
  rewrite split_two_lines, List.filter_app, List.map_app, List.filter_app,
    List.map_app. reflexivity.
Qed.

(** ** Blank documents *)

(** X29.  A text of white space only (line breaks included) yields
    no rule and draws no identifier. *)
Theorem extractRules_blank content fileType h :
  all_space content = true ->
  extractRules uuid_text content fileType h = ([], h).
Proof.
  intros Hs. unfold extractRules.
  replace (List.filter _ (split newline content)) with (@nil string); [reflexivity|].
  pose proof (split_all_space newline content Hs) as Hall.
  induction Hall as [|p ps Hp _ IH]; [reflexivity|]. cbn.
  rewrite (trim_all_space p Hp). exact IH.
Qed.

End Identifiers.

Lemma extractRules_blank_witness :
  extractRules (fun _ => "id")
    (two_lines "   " (String (ascii_of_nat 9) " ")) "text/plain" (Host.init false)
  = ([], Host.init false).
Proof.
  apply (extractRules_blank (fun _ => "id")). vm_compute. reflexivity.
Defined.

End DocumentFacts.

(* ================================================================== *)
(** * The reminder panel *)
(* ================================================================== *)

Module PanelFacts.
Import ReminderService ReminderSpec SchedulerSpec ReminderPanel UpcomingFacts.

Lemma insert_by_time_first x l :
  Forall (no_later x) l -> insert_by_time x l = x :: l.
Proof.
  intros H. destruct H as [|y l Hy _]; [reflexivity|]. cbn.
  unfold no_later in Hy.
  destruct (Z.ltb_spec 0 (Reminder.scheduledTime x - Reminder.scheduledTime y));
    [lia|reflexivity].
Qed.

Lemma filter_insert_by_time (p : Reminder.t -> bool) x l :
  StronglySorted no_later l ->
  List.filter p (insert_by_time x l)
  = if p x then insert_by_time x (List.filter p l) else List.filter p l.
Proof.
  induction 1 as [|y l Hl IH Hy]; cbn [insert_by_time List.filter].
  - destruct (p x); reflexivity.
  - destruct (Z.ltb_spec 0 (Reminder.scheduledTime x - Reminder.scheduledTime y))
      as [Hlt|Hge].
    + cbn [List.filter]. rewrite IH. destruct (p y), (p x); try reflexivity.
      cbn [insert_by_time].
      destruct (Z.ltb_spec 0 (Reminder.scheduledTime x - Reminder.scheduledTime y));
        [reflexivity|lia].
    + cbn [List.filter]. destruct (p x); [|reflexivity].
      symmetry. apply insert_by_time_first.
      assert (Hall : Forall (no_later x) (y :: l)).
      { constructor; [unfold no_later; lia|].
        eapply Forall_impl; [exact Hy|]. unfold no_later. intros z Hz. lia. }
      apply List.Forall_forall. intros z Hz.
      rewrite List.Forall_forall in Hall. apply Hall.
      change (In z (List.filter p (y :: l))) in Hz.
      apply filter_In in Hz. tauto.
Qed.

Lemma filter_sorted_by_time (p : Reminder.t -> bool) l :
  List.filter p (fold_right insert_by_time [] l)
  = fold_right insert_by_time [] (List.filter p l).
Proof.
  induction l as [|x l IH]; [reflexivity|]. cbn [fold_right List.filter].
  rewrite filter_insert_by_time by apply sorted_by_time_sorted.
  rewrite IH. destruct (p x); reflexivity.
Qed.

Lemma filter_comm {A} (p q : A -> bool) l :
  List.filter p (List.filter q l) = List.filter q (List.filter p l).
Proof.
  induction l as [|x l IH]; [reflexivity|]. cbn.
  destruct (p x) eqn:Ep, (q x) eqn:Eq; cbn; rewrite ?Ep, ?Eq, IH; reflexivity.
Qed.

(** ** Dismissing from the panel *)

(** X30.  Dismissing a reminder in the panel keeps the panel in
    step with the service: the filtered list is what the service reports
    as upcoming after the cancellation, the dismissed id is not in it,
    and its timer is gone. *)
Theorem dismissReminder_in_step now reminderService reminderId :
  let after :=
    dismissReminder reminderService (updateReminders now reminderService)
                    reminderId in
  after.2 = updateReminders now after.1
  /\ Forall (fun r => Reminder.id r <> reminderId) after.2
  /\ activeTimers after.1 !! reminderId = None.
Proof.
  cbv zeta. unfold dismissReminder, updateReminders, getUpcomingReminders.
  cbn [fst snd reminders cancelReminder]. split; [|split].
  - rewrite filter_sorted_by_time. f_equal. apply filter_comm.
  - apply List.Forall_forall. intros r Hr. apply filter_In in Hr as [_ Hr].
    apply negb_true_iff, bool_decide_eq_false in Hr. exact Hr.
  - rewrite CancelFacts.cancelReminder_timer. case_decide; [reflexivity|congruence].
Qed.

End PanelFacts.
